(** * RE Platform backend: authentication and authorization core

    A shallow embedding of the authentication backend
    (app/models, app/schemas, app/services/auth_service.py,
    app/core/deps.py, app/api/v1/auth.py) and the properties of its
    specification.

    Conventions.
    - Python [int] is [Z]; [str] is [string], one character per [ascii];
      [Optional[T]] and nullable columns are [option T]; [datetime] and
      [timedelta] are counted in seconds on [Z].
    - The database session is an explicit state: the rows of the [users]
      table, the primary-key sequence and the statements sent so far.
    - What a function raises is the [Raise] outcome of a [Result]: an
      [HTTPException], or the error of the database on a value too long for
      its column.
    - An object returned without [refresh] after an UPDATE is an
      [Instance.t], whose [updated_at] is expired.
    - The routes that ask for a token start from the Authorization header
      of the request, which the bearer scheme of FastAPI reads first.
    - The model is sequential and the connection to the database does not
      fail. *)

From Stdlib Require Import ZArith List String Ascii Bool Lia.
Import ListNotations.

Local Open Scope string_scope.
Local Open Scope Z_scope.

(** ** Python values *)

(** [datetime] values, in seconds. *)
Definition datetime := Z.

(** [timedelta(minutes=m)], in seconds. *)
Definition timedelta_minutes (m : Z) : Z := m * 60.

(** Truth value of a nullable boolean: [None] (SQL NULL) is falsy. *)
Definition truthy (b : option bool) : bool :=
  match b with
  | Some true => true
  | _ => false
  end.

(** A column or field default: used when no value was supplied. *)
Definition with_default {A : Type} (d : A) (o : option A) : A :=
  match o with
  | Some a => a
  | None => d
  end.

(** ** app/models/user.py *)

Inductive UserRole : Type := ADMIN | ANALYST | VIEWER.

Definition UserRole_value (r : UserRole) : string :=
  match r with
  | ADMIN => "admin"
  | ANALYST => "analyst"
  | VIEWER => "viewer"
  end.

Definition UserRole_eqb (a b : UserRole) : bool :=
  match a, b with
  | ADMIN, ADMIN | ANALYST, ANALYST | VIEWER, VIEWER => true
  | _, _ => false
  end.

Module User.
(** A row of the [users] table.  [username], [email],
    [hashed_password] and [role] are NOT NULL; the other columns are
    nullable. *)
Record t : Type := mk {
  id : Z;
  username : string;
  email : string;
  hashed_password : string;
  full_name : option string;
  role : UserRole;
  is_active : option bool;
  is_verified : option bool;
  created_at : option datetime;
  updated_at : option datetime;
  last_login : option datetime
}.

(** The keyword arguments of a [User(...)] constructor call: a column
    that is not passed is left to its default at INSERT. *)
Record kwargs : Type := mk_kwargs {
  kw_username : string;
  kw_email : string;
  kw_hashed_password : string;
  kw_full_name : option string;
  kw_role : option UserRole;
  kw_is_active : option bool;
  kw_is_verified : option bool
}.

(** The row with another [last_login]. *)
Definition with_last_login (v : option datetime) (u : t) : t :=
  {| id := id u;
     username := username u;
     email := email u;
     hashed_password := hashed_password u;
     full_name := full_name u;
     role := role u;
     is_active := is_active u;
     is_verified := is_verified u;
     created_at := created_at u;
     updated_at := updated_at u;
     last_login := v |}.

(** The row with another [updated_at]. *)
Definition with_updated_at (v : option datetime) (u : t) : t :=
  {| id := id u;
     username := username u;
     email := email u;
     hashed_password := hashed_password u;
     full_name := full_name u;
     role := role u;
     is_active := is_active u;
     is_verified := is_verified u;
     created_at := created_at u;
     updated_at := v;
     last_login := last_login u |}.

(** [user.last_login = t] followed by the flush of that change: the
    UPDATE sets [last_login], and [updated_at] through its
    [onupdate=func.now()]. *)
Definition touch_last_login (t db_now : datetime) (u : User.t) : User.t :=
  with_updated_at (Some db_now) (with_last_login (Some t) u).

(** The row with its password hash blanked: everything about a user
    except the hash. *)
Definition without_hash (u : User.t) : User.t :=
  {| id := id u;
     username := username u;
     email := email u;
     hashed_password := "";
     full_name := full_name u;
     role := role u;
     is_active := is_active u;
     is_verified := is_verified u;
     created_at := created_at u;
     updated_at := updated_at u;
     last_login := last_login u |}.
End User.

(** An attribute of an instance held by the session: loaded, or expired by
    a flush that left its value to the database. *)
Inductive Attribute (A : Type) : Type :=
| Loaded (value : A)
| ExpiredAttribute.
Arguments Loaded {A} value.
Arguments ExpiredAttribute {A}.

Module Instance.
(** A [User] instance after a flush.  Only [updated_at], the one column the
    UPDATE leaves to the database ([onupdate=func.now()]), can be expired;
    the session does not expire the others on commit
    ([expire_on_commit=False]). *)
Record t : Type := mk {
  id : Z;
  username : string;
  email : string;
  hashed_password : string;
  full_name : option string;
  role : UserRole;
  is_active : option bool;
  is_verified : option bool;
  created_at : option datetime;
  updated_at : Attribute (option datetime);
  last_login : option datetime
}.

(** The instance of a row just selected: every attribute is loaded. *)
Definition of_row (r : User.t) : t :=
  {| id := User.id r;
     username := User.username r;
     email := User.email r;
     hashed_password := User.hashed_password r;
     full_name := User.full_name r;
     role := User.role r;
     is_active := User.is_active r;
     is_verified := User.is_verified r;
     created_at := User.created_at r;
     updated_at := Loaded (User.updated_at r);
     last_login := User.last_login r |}.

(** [user.last_login = v] followed by [commit], without [refresh]: the
    instance holds the value assigned, and [updated_at], set by the
    database in the UPDATE, is expired. *)
Definition assign_last_login (v : datetime) (i : t) : t :=
  {| id := id i;
     username := username i;
     email := email i;
     hashed_password := hashed_password i;
     full_name := full_name i;
     role := role i;
     is_active := is_active i;
     is_verified := is_verified i;
     created_at := created_at i;
     updated_at := ExpiredAttribute;
     last_login := Some v |}.

(** The row that carries the attributes of the instance, with the given
    [updated_at]. *)
Definition to_row (updated_at : option datetime) (i : t) : User.t :=
  {| User.id := id i;
     User.username := username i;
     User.email := email i;
     User.hashed_password := hashed_password i;
     User.full_name := full_name i;
     User.role := role i;
     User.is_active := is_active i;
     User.is_verified := is_verified i;
     User.created_at := created_at i;
     User.updated_at := updated_at;
     User.last_login := last_login i |}.
End Instance.

(** ** app/schemas/user.py and app/schemas/token.py *)

Module UserCreate.
(** [UserBase] fields and [password]. *)
Record t : Type := mk {
  username : string;
  email : string;
  full_name : option string;
  role : UserRole;
  is_active : bool;
  password : string
}.

(** Same registration data, another password. *)
Definition with_password (p : string) (d : t) : t :=
  {| username := username d;
     email := email d;
     full_name := full_name d;
     role := role d;
     is_active := is_active d;
     password := p |}.
End UserCreate.

Module UserResponse.
(** [UserBase] fields and [id], [is_verified] and the timestamps. *)
Record t : Type := mk {
  username : string;
  email : string;
  full_name : option string;
  role : UserRole;
  is_active : bool;
  id : Z;
  is_verified : bool;
  created_at : datetime;
  updated_at : option datetime;
  last_login : option datetime
}.
End UserResponse.

Module UserLogin.
Record t : Type := mk {
  username : string;
  password : string
}.
End UserLogin.

Module Token.
Record t : Type := mk {
  access_token : string;
  token_type : string;
  expires_in : Z
}.
End Token.

Module TokenData.
Record t : Type := mk {
  username : option string;
  user_id : option Z;
  role : option string
}.
End TokenData.

(** ** app/core/config.py *)

Module Settings.
Record t : Type := mk {
  PROJECT_NAME : string;
  VERSION : string;
  API_V1_STR : string;
  SECRET_KEY : string;
  ACCESS_TOKEN_EXPIRE_MINUTES : Z;
  ENVIRONMENT : string
}.

(** The field defaults of [Settings]. *)
Definition defaults : t :=
  {| PROJECT_NAME := "RE Platform";
     VERSION := "0.1.0";
     API_V1_STR := "/api/v1";
     SECRET_KEY := "your-secret-key-change-this-in-production";
     ACCESS_TOKEN_EXPIRE_MINUTES := 30;
     ENVIRONMENT := "development" |}.
End Settings.

(** ** fastapi.HTTPException and outcomes *)

Record HTTPException : Type := mkHTTPException {
  status_code : Z;
  detail : string;
  headers : list (string * string)
}.

Definition HTTP_400_BAD_REQUEST : Z := 400.
Definition HTTP_401_UNAUTHORIZED : Z := 401.
Definition HTTP_403_FORBIDDEN : Z := 403.
Definition HTTP_201_CREATED : Z := 201.
Definition HTTP_200_OK : Z := 200.

(** What a function raises: an [HTTPException], or the error of a
    statement that the database refuses (sqlalchemy.exc.DBAPIError), which
    no code of the backend turns into an [HTTPException]. *)
Inductive Exception : Type :=
| HTTP (e : HTTPException)
| DataError.
Coercion HTTP : HTTPException >-> Exception.

Inductive Result (A : Type) : Type :=
| Return (a : A)
| Raise (e : Exception).
Arguments Return {A} a.
Arguments Raise {A} e.

(** ** The database session *)

Inductive Statement : Type := SELECT | INSERT | UPDATE.

Record Session : Type := mkSession {
  users : list User.t;
  id_seq : Z;
  statements : list Statement
}.

(** A statement goes to the database. *)
Definition sent (st : Statement) (db : Session) : Session :=
  {| users := users db; id_seq := id_seq db; statements := statements db ++ [st] |}.

(** [db.execute(select(User).where(p))] then [.scalars().first()]. *)
Definition select_first (p : User.t -> bool) (db : Session) : option User.t * Session :=
  (find p (users db), sent SELECT db).

(** The columns of declared width hold only what fits: [username] is
    String(50), [email] String(100) and [full_name] String(100).  The hash
    made by the hasher is taken to fit [hashed_password], String(255). *)
Definition fits_columns (kw : User.kwargs) : bool :=
  (Nat.leb (String.length (User.kw_username kw)) 50
   && Nat.leb (String.length (User.kw_email kw)) 100
   && match User.kw_full_name kw with
      | Some full_name => Nat.leb (String.length full_name) 100
      | None => true
      end)%bool.

(** [db.add(User(...))], [commit] and [refresh]: the INSERT takes the next
    primary key, fills the column defaults ([role] VIEWER, [is_active]
    True, [is_verified] False, [created_at] now()) for what the constructor
    call left out, and the refreshed row is returned.  A value too long for
    its column makes the INSERT fail: [None], nothing is written, and the key
    drawn from the sequence is not given back. *)
Definition add_commit_refresh (db_now : datetime) (kw : User.kwargs) (db : Session)
  : option User.t * Session :=
  if fits_columns kw
  then
    let row :=
      {| User.id := id_seq db + 1;
         User.username := User.kw_username kw;
         User.email := User.kw_email kw;
         User.hashed_password := User.kw_hashed_password kw;
         User.full_name := User.kw_full_name kw;
         User.role := with_default VIEWER (User.kw_role kw);
         User.is_active := Some (with_default true (User.kw_is_active kw));
         User.is_verified := Some (with_default false (User.kw_is_verified kw));
         User.created_at := Some db_now;
         User.updated_at := None;
         User.last_login := None |} in
    (Some row,
     {| users := users db ++ [row];
        id_seq := id_seq db + 1;
        statements := statements db ++ [INSERT; SELECT] |})
  else
    (None,
     {| users := users db;
        id_seq := id_seq db + 1;
        statements := statements db ++ [INSERT] |}).

(** The UPDATE flushed by [commit] after [user.last_login = t]: by primary
    key. *)
Definition commit_last_login (uid : Z) (t db_now : datetime) (db : Session) : Session :=
  {| users := map (fun r => if User.id r =? uid
                            then User.touch_last_login t db_now r else r)
                  (users db);
     id_seq := id_seq db;
     statements := statements db ++ [UPDATE] |}.

(** ** Token claims *)

Module Claims.
(** The [data] dictionary of a token:
    [{"sub": ..., "user_id": ..., "role": ...}]. *)
Record t : Type := mk {
  sub : string;
  user_id : Z;
  role : string
}.
End Claims.

Module SignedToken.
(** A token before it is written as a string: the claims, the absolute
    expiry and the signature over both. *)
Record t : Type := mk {
  claims : Claims.t;
  exp : datetime;
  signature : string
}.
End SignedToken.

Inductive DecodeFailure : Type := InvalidSignature | Expired.

(** ** Responses of the endpoints *)

Inductive Response (A : Type) : Type :=
| Success (status : Z) (body : A)
| Error (e : HTTPException)
| ResponseValidationError
| InternalServerError.
Arguments Success {A} status body.
Arguments Error {A} e.
Arguments ResponseValidationError {A}.
Arguments InternalServerError {A}.

(** What FastAPI answers to an exception that leaves a handler or a
    dependency: the [HTTPException] as it is, a 500 for any other. *)
Definition answer_exception {A : Type} (e : Exception) : Response A :=
  match e with
  | HTTP e => Error e
  | DataError => InternalServerError
  end.

(** ** The failures raised by the service and the dependencies *)

(** auth_service.py, [create_user]: duplicate username or email. *)
Definition already_registered : HTTPException :=
  {| status_code := HTTP_400_BAD_REQUEST;
     detail := "Username or email already registered";
     headers := [] |}.

(** auth_service.py, [login_user]: authentication failed. *)
Definition incorrect_username_or_password : HTTPException :=
  {| status_code := HTTP_401_UNAUTHORIZED;
     detail := "Incorrect username or password";
     headers := [("WWW-Authenticate", "Bearer")] |}.

(** deps.py, [get_current_user]: the token does not resolve to a user. *)
Definition credentials_exception : HTTPException :=
  {| status_code := HTTP_401_UNAUTHORIZED;
     detail := "Could not validate credentials";
     headers := [("WWW-Authenticate", "Bearer")] |}.

(** deps.py, [get_current_user] and [get_current_active_user]. *)
Definition inactive_user : HTTPException :=
  {| status_code := HTTP_400_BAD_REQUEST;
     detail := "Inactive user";
     headers := [] |}.

(** deps.py, [require_role]. *)
Definition not_enough_permissions : HTTPException :=
  {| status_code := HTTP_403_FORBIDDEN;
     detail := "Not enough permissions";
     headers := [] |}.

(** The failure kinds of the specification, in its order: Conflict,
    InvalidCredentials, Unauthenticated, InactiveUser, Forbidden. *)
Definition failure_kinds : list HTTPException :=
  [ already_registered; incorrect_username_or_password;
    credentials_exception; inactive_user; not_enough_permissions ].

Definition is_4xx (e : HTTPException) : Prop :=
  400 <= status_code e <= 499.

(** ** fastapi.security.HTTPBearer

    [security = HTTPBearer()] of deps.py is the class of FastAPI with its
    [auto_error]; tests/test_auth.py has its 403 for a request without a
    token. *)

Definition not_authenticated : HTTPException :=
  {| status_code := HTTP_403_FORBIDDEN;
     detail := "Not authenticated";
     headers := [] |}.

Definition invalid_authentication_credentials : HTTPException :=
  {| status_code := HTTP_403_FORBIDDEN;
     detail := "Invalid authentication credentials";
     headers := [] |}.

(** Every failure a route can answer with: the five kinds and the two of
    the bearer scheme. *)
Definition route_failures : list HTTPException :=
  failure_kinds ++ [ not_authenticated; invalid_authentication_credentials ].

(** [s.partition(" ")]: what stands before and what stands after the first
    space. *)
Fixpoint partition_space (s : string) : string * string :=
  match s with
  | EmptyString => (EmptyString, EmptyString)
  | String c rest =>
      if Ascii.eqb c " "
      then (EmptyString, rest)
      else let (scheme, param) := partition_space rest in (String c scheme, param)
  end.

Definition lower_ascii (c : ascii) : ascii :=
  if (Ascii.leb "A" c && Ascii.leb c "Z")%bool
  then ascii_of_nat (nat_of_ascii c + 32)
  else c.

(** [s.lower()]. *)
Fixpoint lower (s : string) : string :=
  match s with
  | EmptyString => EmptyString
  | String c rest => String (lower_ascii c) (lower rest)
  end.

(** An empty [str] is falsy. *)
Definition is_empty (s : string) : bool :=
  match s with
  | EmptyString => true
  | String _ _ => false
  end.

(** [HTTPBearer.__call__(request)]; [authorization] is the value of the
    Authorization header of the request, if it has one.  What is returned
    is the [credentials] of the [HTTPAuthorizationCredentials]. *)
Definition security (authorization : option string) : Result string :=
  match authorization with
  | None => Raise not_authenticated
  | Some header =>
      let (scheme, credentials) := partition_space header in
      if (is_empty header || is_empty scheme || is_empty credentials)%bool
      then Raise not_authenticated
      else if negb (String.eqb (lower scheme) "bearer")
      then Raise invalid_authentication_credentials
      else Return credentials
  end.

(** ** Handlers: computations over the session that may raise *)

Definition Handler (A : Type) : Type := Session -> Result A * Session.

Definition bind {A B : Type} (m : Handler A) (k : A -> Handler B) : Handler B :=
  fun db =>
    match m db with
    | (Return a, db') => k a db'
    | (Raise e, db') => (Raise e, db')
    end.

(** A dependency that does not touch the session. *)
Definition lift {A : Type} (r : Result A) : Handler A := fun db => (r, db).

Notation "x <- m ;; k" := (bind m (fun x => k))
  (at level 61, m at next level, right associativity).

(** ** Test data

    Stand-ins for the parameters of the backend and a small [users] table,
    after tests/test_auth.py and scripts/seed_admin.py. *)

Fixpoint after_dollar (s : string) : string :=
  match s with
  | EmptyString => EmptyString
  | String c rest => if Ascii.eqb c "$" then rest else after_dollar rest
  end.

Fixpoint has_at (s : string) : bool :=
  match s with
  | EmptyString => false
  | String c rest => if Ascii.eqb c "@" then true else has_at rest
  end.

(** A stand-in hasher: the salt, a dollar sign and the password. *)
Definition example_get_password_hash (salt password : string) : string :=
  salt ++ "$" ++ password.

Definition example_verify_password (plain_password hashed_password : string) : bool :=
  String.eqb (after_dollar hashed_password) plain_password.

(** A stand-in signature. *)
Definition example_sign (key : string) (c : Claims.t) (exp : datetime) : string :=
  key ++ "/" ++ Claims.sub c ++ "/" ++ Claims.role c.

Definition example_validate_email (email : string) : option string :=
  if has_at email then Some email else None.

Definition admin_row : User.t :=
  {| User.id := 1;
     User.username := "admin";
     User.email := "admin@re-platform.local";
     User.hashed_password := "s1$admin123!";
     User.full_name := Some "System Administrator";
     User.role := ADMIN;
     User.is_active := Some true;
     User.is_verified := Some true;
     User.created_at := Some 100;
     User.updated_at := None;
     User.last_login := None |}.

Definition authtest_row : User.t :=
  {| User.id := 2;
     User.username := "authtest";
     User.email := "authtest@example.com";
     User.hashed_password := "s2$testpass123";
     User.full_name := None;
     User.role := VIEWER;
     User.is_active := Some true;
     User.is_verified := Some false;
     User.created_at := Some 200;
     User.updated_at := None;
     User.last_login := None |}.

Definition dormant_row : User.t :=
  {| User.id := 3;
     User.username := "dormant";
     User.email := "dormant@example.com";
     User.hashed_password := "s3$sleeping99";
     User.full_name := None;
     User.role := ANALYST;
     User.is_active := Some false;
     User.is_verified := Some false;
     User.created_at := Some 300;
     User.updated_at := None;
     User.last_login := None |}.

Definition example_db : Session :=
  {| users := [admin_row; authtest_row; dormant_row];
     id_seq := 3;
     statements := [] |}.

Definition example_claims (u : User.t) : Claims.t :=
  {| Claims.sub := User.username u;
     Claims.user_id := User.id u;
     Claims.role := UserRole_value (User.role u) |}.

(** A token for [u] expiring at [exp], signed with the default key. *)
Definition example_token (u : User.t) (exp : datetime) : SignedToken.t :=
  {| SignedToken.claims := example_claims u;
     SignedToken.exp := exp;
     SignedToken.signature :=
       example_sign (Settings.SECRET_KEY Settings.defaults) (example_claims u) exp |}.

(** A token whose signature was not made with the key. *)
Definition forged_token : SignedToken.t :=
  {| SignedToken.claims := example_claims admin_row;
     SignedToken.exp := 2800;
     SignedToken.signature := "forged" |}.

(** A token for a user that is not in the table. *)
Definition vanished_token : SignedToken.t :=
  {| SignedToken.claims :=
       {| Claims.sub := "ghost"; Claims.user_id := 9; Claims.role := "viewer" |};
     SignedToken.exp := 2800;
     SignedToken.signature :=
       example_sign (Settings.SECRET_KEY Settings.defaults)
         {| Claims.sub := "ghost"; Claims.user_id := 9; Claims.role := "viewer" |} 2800 |}.

(** A stand-in wire format: the bearer strings of the examples. *)
Definition example_wire : list (string * SignedToken.t) :=
  [ ("admin.token", example_token admin_row 2800);
    ("authtest.token", example_token authtest_row 2800);
    ("dormant.token", example_token dormant_row 2800);
    ("forged.token", forged_token);
    ("vanished.token", vanished_token) ].

Definition example_parse_token (s : string) : option SignedToken.t :=
  option_map snd (find (fun e => String.eqb (fst e) s) example_wire).

Definition example_render_token (tok : SignedToken.t) : string :=
  Claims.sub (SignedToken.claims tok) ++ ".token".

(** [n] times the character [c]. *)
Fixpoint replicate (n : nat) (c : ascii) : string :=
  match n with
  | O => EmptyString
  | S n => String c (replicate n c)
  end.

(** An address of 126 characters: 64 before the at sign, a domain of 61. *)
Definition overlong_email : string :=
  replicate 64 "a" ++ "@" ++ replicate 57 "b" ++ ".com".

Definition overlong_user_data : UserCreate.t :=
  {| UserCreate.username := "longmail";
     UserCreate.email := overlong_email;
     UserCreate.full_name := None;
     UserCreate.role := VIEWER;
     UserCreate.is_active := true;
     UserCreate.password := "testpass123" |}.

Definition example_user_data : UserCreate.t :=
  {| UserCreate.username := "testuser";
     UserCreate.email := "test@example.com";
     UserCreate.full_name := Some "Test User";
     UserCreate.role := ANALYST;
     UserCreate.is_active := true;
     UserCreate.password := "testpass123" |}.

(** ** The service, its dependencies and the endpoints

    app/core/security.py (the password hasher and the token codec) and the
    email validator of pydantic are not part of the sources at hand: the
    primitives they rest on are the parameters of this section. *)

Section Backend.

(** The process configuration ([settings]). *)
Variable settings : Settings.t.

(** [verify_password(plain_password, hashed_password)] of
    app/core/security.py. *)
Variable verify_password : string -> string -> bool.

(** [get_password_hash(password)] of app/core/security.py; the first
    argument is the salt drawn by the call. *)
Variable get_password_hash : string -> string -> string.

(** The keyed signature of a claim set and its expiry. *)
Variable sign : string -> Claims.t -> datetime -> string.

(** The wire format of a signed token: writing it as a string and reading
    a string back, [None] on a string that is no token. *)
Variable render_token : SignedToken.t -> string.
Variable parse_token : string -> option SignedToken.t.

(** [EmailStr] validation: the normalised address, [None] when the
    syntax is rejected. *)
Variable validate_email : string -> option string.

(** *** Token Codec *)

(** Modelled from the spec: [issue] of the Token Codec (section 4.2), in
    place of the missing app/core/security.py: a signed token embeds the
    claims and the absolute expiry issue-time + ttl. *)
Definition issue (now : datetime) (claims : Claims.t) (ttl : Z) : SignedToken.t :=
  let exp := now + ttl in
  {| SignedToken.claims := claims;
     SignedToken.exp := exp;
     SignedToken.signature := sign (Settings.SECRET_KEY settings) claims exp |}.

(** Modelled from the spec: [decode] of the Token Codec (section 4.2), in
    place of the missing app/core/security.py: the signature is verified
    first, then the expiry; the token is expired when the current time is
    at or past the embedded expiry. *)
Definition decode (now : datetime) (tok : SignedToken.t) : DecodeFailure + Claims.t :=
  if String.eqb (SignedToken.signature tok)
                (sign (Settings.SECRET_KEY settings)
                      (SignedToken.claims tok) (SignedToken.exp tok))
  then if SignedToken.exp tok <=? now
       then inl Expired
       else inr (SignedToken.claims tok)
  else inl InvalidSignature.

(** Modelled from the spec: [create_access_token(data, expires_delta)] of
    the missing app/core/security.py is [issue] written as a string. *)
Definition create_access_token (now : datetime) (data : Claims.t) (expires_delta : Z)
  : string :=
  render_token (issue now data expires_delta).

(** Modelled from the spec: [verify_token(token)] of the missing
    app/core/security.py reads the string, decodes it and raises
    Unauthenticated on a string that is no token (structural corruption),
    on [InvalidSignature] and on [Expired] (section 4.4, ResolveUser
    step 1). *)
Definition verify_token (now : datetime) (token_str : string) : Result TokenData.t :=
  match parse_token token_str with
  | None => Raise credentials_exception
  | Some tok =>
      match decode now tok with
      | inl _ => Raise credentials_exception
      | inr claims =>
          Return {| TokenData.username := Some (Claims.sub claims);
                    TokenData.user_id := Some (Claims.user_id claims);
                    TokenData.role := Some (Claims.role claims) |}
      end
  end.

(** *** app/schemas/user.py: validation *)

Definition length_between (lo hi : nat) (s : string) : bool :=
  (Nat.leb lo (String.length s) && Nat.leb (String.length s) hi)%bool.

Definition optional_max_length (hi : nat) (s : option string) : bool :=
  match s with
  | None => true
  | Some s => Nat.leb (String.length s) hi
  end.

(** [UserCreate(username=..., email=..., password=..., ...)]: the
    optional keyword arguments take the defaults of [UserBase]; [None] is
    a ValidationError. *)
Definition UserCreate_init (username email password : string)
           (full_name : option string) (role : option UserRole)
           (is_active : option bool) : option UserCreate.t :=
  if (length_between 3 50 username && optional_max_length 100 full_name
      && length_between 8 100 password)%bool
  then match validate_email email with
       | None => None
       | Some email =>
           Some {| UserCreate.username := username;
                   UserCreate.email := email;
                   UserCreate.full_name := full_name;
                   UserCreate.role := with_default VIEWER role;
                   UserCreate.is_active := with_default true is_active;
                   UserCreate.password := password |}
       end
  else None.

(** [UserResponse.model_validate(user)] with [from_attributes]: the
    response model reads the attributes it declares and nothing else;
    [None] is a validation error. *)
Definition UserResponse_from_attributes (u : User.t) : option UserResponse.t :=
  if (length_between 3 50 (User.username u)
      && optional_max_length 100 (User.full_name u))%bool
  then match validate_email (User.email u),
             User.is_active u, User.is_verified u, User.created_at u with
       | Some email, Some is_active, Some is_verified, Some created_at =>
           Some {| UserResponse.username := User.username u;
                   UserResponse.email := email;
                   UserResponse.full_name := User.full_name u;
                   UserResponse.role := User.role u;
                   UserResponse.is_active := is_active;
                   UserResponse.id := User.id u;
                   UserResponse.is_verified := is_verified;
                   UserResponse.created_at := created_at;
                   UserResponse.updated_at := User.updated_at u;
                   UserResponse.last_login := User.last_login u |}
       | _, _, _, _ => None
       end
  else None.

(** *** app/services/auth_service.py *)

(** [AuthService.create_user(db, user_data)]; [salt] is drawn by the
    hasher and [db_now] is the database clock at the INSERT. *)
Definition create_user (salt : string) (db_now : datetime)
           (user_data : UserCreate.t) : Handler User.t :=
  fun db =>
    let (existing_user, db) :=
      select_first
        (fun u => (String.eqb (User.username u) (UserCreate.username user_data)
                   || String.eqb (User.email u) (UserCreate.email user_data))%bool)
        db in
    match existing_user with
    | Some _ => (Raise already_registered, db)
    | None =>
        let hashed_password := get_password_hash salt (UserCreate.password user_data) in
        let db_user :=
          {| User.kw_username := UserCreate.username user_data;
             User.kw_email := UserCreate.email user_data;
             User.kw_hashed_password := hashed_password;
             User.kw_full_name := UserCreate.full_name user_data;
             User.kw_role := Some (UserCreate.role user_data);
             User.kw_is_active := Some (UserCreate.is_active user_data);
             User.kw_is_verified := None |} in
        match add_commit_refresh db_now db_user db with
        | (Some db_user, db) => (Return db_user, db)
        | (None, db) => (Raise DataError, db)
        end
    end.

(** [AuthService.authenticate_user(db, login_data)]; [utcnow] is
    [datetime.utcnow()] and [db_now] the database clock at the UPDATE. *)
Definition authenticate_user (utcnow db_now : datetime) (login_data : UserLogin.t)
           (db : Session) : option Instance.t * Session :=
  let (user, db) :=
    select_first
      (fun u => String.eqb (User.username u) (UserLogin.username login_data)) db in
  match user with
  | None => (None, db)
  | Some user =>
      if negb (verify_password (UserLogin.password login_data)
                               (User.hashed_password user))
      then (None, db)
      else if negb (truthy (User.is_active user))
      then (None, db)
      else
        (Some (Instance.assign_last_login utcnow (Instance.of_row user)),
         commit_last_login (User.id user) utcnow db_now db)
  end.

(** [AuthService.login_user(db, login_data)]; [issued_at] is the clock
    read by [create_access_token]. *)
Definition login_user (utcnow db_now issued_at : datetime) (login_data : UserLogin.t)
  : Handler Token.t :=
  fun db =>
    let (user, db) := authenticate_user utcnow db_now login_data db in
    match user with
    | None => (Raise incorrect_username_or_password, db)
    | Some user =>
        let access_token_expires :=
          timedelta_minutes (Settings.ACCESS_TOKEN_EXPIRE_MINUTES settings) in
        let access_token :=
          create_access_token issued_at
            {| Claims.sub := Instance.username user;
               Claims.user_id := Instance.id user;
               Claims.role := UserRole_value (Instance.role user) |}
            access_token_expires in
        (Return {| Token.access_token := access_token;
                   Token.token_type := "bearer";
                   Token.expires_in :=
                     Settings.ACCESS_TOKEN_EXPIRE_MINUTES settings * 60 |},
         db)
    end.

(** [AuthService.get_user_by_id(db, user_id)]; a [None] id compares to
    no primary key. *)
Definition get_user_by_id (user_id : option Z) (db : Session)
  : option User.t * Session :=
  select_first
    (fun u => match user_id with
              | Some i => User.id u =? i
              | None => false
              end) db.

(** [AuthService.get_user_by_username(db, username)]. *)
Definition get_user_by_username (username : string) (db : Session)
  : option User.t * Session :=
  select_first (fun u => String.eqb (User.username u) username) db.

(** *** app/core/deps.py *)

(** [get_current_user(token, db)], from the bearer string
    [token.credentials] on. *)
Definition get_current_user (now : datetime) (token_str : string) : Handler User.t :=
  fun db =>
    match verify_token now token_str with
    | Raise e => (Raise e, db)
    | Return token_data =>
        let (user, db) := get_user_by_id (TokenData.user_id token_data) db in
        match user with
        | None => (Raise credentials_exception, db)
        | Some user =>
            if negb (truthy (User.is_active user))
            then (Raise inactive_user, db)
            else (Return user, db)
        end
    end.

(** [get_current_active_user(current_user)]. *)
Definition get_current_active_user (current_user : User.t) : Result User.t :=
  if negb (truthy (User.is_active current_user))
  then Raise inactive_user
  else Return current_user.

(** The [role_checker] closure returned by [require_role(required_role)]. *)
Definition require_role (required_role : UserRole) (current_user : User.t)
  : Result User.t :=
  if (negb (UserRole_eqb (User.role current_user) required_role)
      && negb (UserRole_eqb (User.role current_user) ADMIN))%bool
  then Raise not_enough_permissions
  else Return current_user.

Definition require_admin := require_role ADMIN.
Definition require_analyst := require_role ANALYST.
Definition require_viewer := require_role VIEWER.

(** [Depends(get_current_active_user)] resolved on a request. *)
Definition depends_current_active_user (now : datetime) (token_str : string)
  : Handler User.t :=
  current_user <- get_current_user now token_str ;;
  lift (get_current_active_user current_user).

(** [Depends(role_checker)] resolved on a request, for a [role_checker]
    made by [require_role]. *)
Definition depends_role_checker (role_checker : User.t -> Result User.t)
           (now : datetime) (token_str : string) : Handler User.t :=
  current_user <- depends_current_active_user now token_str ;;
  lift (role_checker current_user).

(** *** app/api/v1/auth.py *)

(** What FastAPI sends for a handler with [response_model=UserResponse]. *)
Definition respond_user (status : Z) (r : Result User.t * Session)
  : Response UserResponse.t * Session :=
  match r with
  | (Return user, db) =>
      match UserResponse_from_attributes user with
      | Some view => (Success status view, db)
      | None => (ResponseValidationError, db)
      end
  | (Raise e, db) => (answer_exception e, db)
  end.

(** [POST /register], from the bearer string that [Depends(security)]
    gave. *)
Definition register (now : datetime) (salt : string) (db_now : datetime)
           (token_str : string) (user_data : UserCreate.t) (db : Session)
  : Response UserResponse.t * Session :=
  respond_user HTTP_201_CREATED
    ((current_user <- depends_role_checker require_admin now token_str ;;
      create_user salt db_now user_data) db).

(** [POST /login]. *)
Definition login (utcnow db_now issued_at : datetime) (login_data : UserLogin.t)
           (db : Session) : Response Token.t * Session :=
  match login_user utcnow db_now issued_at login_data db with
  | (Return token, db) => (Success HTTP_200_OK token, db)
  | (Raise e, db) => (answer_exception e, db)
  end.

(** [GET /me], from the bearer string that [Depends(security)] gave. *)
Definition get_current_user_info (now : datetime) (token_str : string) (db : Session)
  : Response UserResponse.t * Session :=
  respond_user HTTP_200_OK (depends_current_active_user now token_str db).

(** [POST /logout]. *)
Definition logout (db : Session) : Response (list (string * string)) * Session :=
  (Success HTTP_200_OK [("message", "Successfully logged out")], db).

(** *** The routes with a token, from the request on *)

(** [Depends(security)] resolved first, then the route with the bearer
    string it gave; a failure of [security] is answered as it is. *)
Definition with_bearer {A : Type} (authorization : option string)
           (route : string -> Session -> Response A * Session) (db : Session)
  : Response A * Session :=
  match security authorization with
  | Return credentials => route credentials db
  | Raise e => (answer_exception e, db)
  end.

(** The route [POST /register] on a request with validated registration
    data. *)
Definition route_register (now : datetime) (salt : string) (db_now : datetime)
           (authorization : option string) (user_data : UserCreate.t)
  : Session -> Response UserResponse.t * Session :=
  with_bearer authorization
    (fun token_str => register now salt db_now token_str user_data).

(** The route [GET /me]. *)
Definition route_me (now : datetime) (authorization : option string)
  : Session -> Response UserResponse.t * Session :=
  with_bearer authorization (get_current_user_info now).

(** *** Relations used by the properties *)

(** Two tables that differ at most in stored password hashes. *)
Definition same_but_hashes (db1 db2 : Session) : Prop :=
  map User.without_hash (users db1) = map User.without_hash (users db2)
  /\ id_seq db1 = id_seq db2.

(** The frame property of [authenticate_user] with [last_login] as the
    only column that may change. *)
Definition authenticate_user_changes_only_last_login : Prop :=
  forall utcnow db_now login_data db,
    match authenticate_user utcnow db_now login_data db with
    | (Some user, db') =>
        Instance.last_login user = Some utcnow
        /\ Forall2 (fun r r' => User.with_last_login None r' = User.with_last_login None r)
                   (users db) (users db')
    | (None, db') => users db' = users db
    end.

(** A row of the table already has the username or the email of the
    registration data. *)
Definition username_or_email_taken (user_data : UserCreate.t) (db : Session) : Prop :=
  exists u, In u (users db)
            /\ (User.username u = UserCreate.username user_data
                \/ User.email u = UserCreate.email user_data).

(** The registration data fit the columns of the table: String(50) for the
    username, String(100) for the address and for the full name. *)
Definition fits_table (user_data : UserCreate.t) : Prop :=
  (String.length (UserCreate.username user_data) <= 50)%nat
  /\ (String.length (UserCreate.email user_data) <= 100)%nat
  /\ match UserCreate.full_name user_data with
     | Some full_name => (String.length full_name <= 100)%nat
     | None => True
     end.

(** Two rows that differ at most in [last_login] and [updated_at]. *)
Definition same_but_login_times (r r' : User.t) : Prop :=
  User.with_updated_at None (User.with_last_login None r')
  = User.with_updated_at None (User.with_last_login None r).

(** From [db] to [db'] nothing was written and at most two lookups were
    sent. *)
Definition only_lookups (db db' : Session) : Prop :=
  users db' = users db
  /\ id_seq db' = id_seq db
  /\ exists n, (n <= 2)%nat /\ statements db' = (statements db ++ repeat SELECT n)%list.

(** Two outcomes that are the same failure, or the same user up to the
    stored password hash. *)
Definition same_outcome_but_hash (r1 r2 : Result User.t) : Prop :=
  match r1, r2 with
  | Return u1, Return u2 => User.without_hash u1 = User.without_hash u2
  | Raise e1, Raise e2 => e1 = e2
  | _, _ => False
  end.

(** *** The constraints of the [users] table

    app/models/user.py: [id] is the primary key, [username] and [email]
    carry unique indexes, and the keys come from the sequence. *)
Definition table_constraints (db : Session) : Prop :=
  NoDup (map User.id (users db))
  /\ NoDup (map User.username (users db))
  /\ NoDup (map User.email (users db))
  /\ Forall (fun u => User.id u <= id_seq db) (users db).

(** *** scripts/seed_admin.py *)

(** What [create_admin_user] ends with: the message that the admin is
    already there, the messages about the admin created, or the exception
    of the INSERT raised again after the rollback.  The text printed is not
    part of the model. *)
Inductive SeedOutcome : Type :=
| AlreadyExists
| CreatedAdmin (admin_user : User.t)
| SeedFailed.

(** [db.add], [commit] and [refresh] under the unique indexes of
    [username] and [email]: [None] is the IntegrityError of a duplicate, or
    the error of a value too long, after which nothing was written; the key
    drawn from the sequence is not given back. *)
Definition add_commit_refresh_unique (db_now : datetime) (kw : User.kwargs) (db : Session)
  : option User.t * Session :=
  if existsb (fun u => (String.eqb (User.username u) (User.kw_username kw)
                        || String.eqb (User.email u) (User.kw_email kw))%bool)
             (users db)
  then (None,
        {| users := users db;
           id_seq := id_seq db + 1;
           statements := statements db ++ [INSERT] |})
  else add_commit_refresh db_now kw db.

(** [create_admin_user()]; [salt] is drawn by the hasher and [db_now] is the
    database clock at the INSERT. *)
Definition create_admin_user (salt : string) (db_now : datetime) (db : Session)
  : SeedOutcome * Session :=
  let (existing_user, db) :=
    select_first (fun u => String.eqb (User.username u) "admin") db in
  match existing_user with
  | Some _ => (AlreadyExists, db)
  | None =>
      let hashed_password := get_password_hash salt "admin123!" in
      let admin_user :=
        {| User.kw_username := "admin";
           User.kw_email := "admin@re-platform.local";
           User.kw_hashed_password := hashed_password;
           User.kw_full_name := Some "System Administrator";
           User.kw_role := Some ADMIN;
           User.kw_is_active := Some true;
           User.kw_is_verified := Some true |} in
      match add_commit_refresh_unique db_now admin_user db with
      | (Some admin_user, db) => (CreatedAdmin admin_user, db)
      | (None, db) => (SeedFailed, db)
      end
  end.

(** ** Properties *)

Lemma UserRole_eqb_eq (a b : UserRole) : UserRole_eqb a b = true <-> a = b.
Proof. destruct a, b; simpl; split; intro H; congruence. Qed.

Lemma UserRole_eqb_neq (a b : UserRole) : UserRole_eqb a b = false <-> a <> b.
Proof. destruct a, b; simpl; split; intro H; congruence. Qed.

Lemma truthy_true (b : option bool) : truthy b = true <-> b = Some true.
Proof. destruct b as [[|]|]; simpl; split; intro H; congruence. Qed.

Lemma truthy_false (b : option bool) : truthy b = false <-> b <> Some true.
Proof. destruct b as [[|]|]; simpl; split; intro H; congruence. Qed.

(** The three ways [authenticate_user] gives up, and the one way it
    succeeds, in the order of the code. *)
Lemma authenticate_user_unfold (utcnow db_now : datetime) (login_data : UserLogin.t)
      (db : Session) :
  authenticate_user utcnow db_now login_data db =
  match fst (get_user_by_username (UserLogin.username login_data) db) with
  | None => (None, sent SELECT db)
  | Some user =>
      if verify_password (UserLogin.password login_data) (User.hashed_password user)
      then if truthy (User.is_active user)
           then (Some (Instance.assign_last_login utcnow (Instance.of_row user)),
                 commit_last_login (User.id user) utcnow db_now (sent SELECT db))
           else (None, sent SELECT db)
      else (None, sent SELECT db)
  end.
Proof.
  unfold authenticate_user, get_user_by_username, select_first; simpl.
  destruct (find _ (users db)) as [user|]; [|reflexivity].
  destruct (verify_password _ _); simpl; [|reflexivity].
  destruct (truthy _); reflexivity.
Qed.

(** C1. Whatever the table and the login data, [authenticate_user]
    has one and the same outcome, [None] after the one lookup, when the
    username is unknown, when the password is wrong for the user found, and
    when the password is right but the user is not active: the three
    failures cannot be told apart from what is returned. *)
Theorem authenticate_user_failures_indistinguishable :
  forall (utcnow db_now : datetime) (login_data : UserLogin.t) (db : Session),
    let found := fst (get_user_by_username (UserLogin.username login_data) db) in
    (found = None
     \/ (exists user, found = Some user
         /\ verify_password (UserLogin.password login_data)
                            (User.hashed_password user) = false)
     \/ (exists user, found = Some user
         /\ verify_password (UserLogin.password login_data)
                            (User.hashed_password user) = true
         /\ User.is_active user <> Some true)) ->
    authenticate_user utcnow db_now login_data db = (None, sent SELECT db).
Proof.
  intros utcnow db_now login_data db found H.
  rewrite authenticate_user_unfold. fold found.
  destruct H as [H | [(user & Hf & Hv) | (user & Hf & Hv & Ha)]].
  - rewrite H. reflexivity.
  - rewrite Hf, Hv. reflexivity.
  - rewrite Hf, Hv. apply truthy_false in Ha. rewrite Ha. reflexivity.
Qed.

(** C2. For every resolved user and every required role, the role gate
    lets the user through exactly when the user's role is the required one
    or ADMIN, and raises 403 "Not enough permissions" otherwise; an ANALYST
    does not pass a VIEWER gate, nor a VIEWER an ANALYST gate. *)
Theorem require_role_permits_iff :
  forall (required_role : UserRole) (current_user : User.t),
    (require_role required_role current_user = Return current_user
     <-> (User.role current_user = required_role \/ User.role current_user = ADMIN))
    /\ (~ (User.role current_user = required_role \/ User.role current_user = ADMIN)
        -> require_role required_role current_user = Raise not_enough_permissions)
    /\ (User.role current_user = ANALYST
        -> require_role VIEWER current_user = Raise not_enough_permissions)
    /\ (User.role current_user = VIEWER
        -> require_role ANALYST current_user = Raise not_enough_permissions).
Proof.
  intros required_role current_user. unfold require_role.
  split; [split|split; [|split]].
  - destruct (User.role current_user), required_role; simpl; intro H;
      solve [ auto | discriminate H ].
  - destruct (User.role current_user), required_role; simpl; intro H;
      solve [ reflexivity | destruct H; discriminate ].
  - destruct (User.role current_user), required_role; simpl; intro H;
      solve [ reflexivity | exfalso; apply H; auto ].
  - intro H; rewrite H; reflexivity.
  - intro H; rewrite H; reflexivity.
Qed.

Lemma get_current_user_unfold (now : datetime) (token_str : string) (db : Session) :
  get_current_user now token_str db =
  match verify_token now token_str with
  | Raise e => (Raise e, db)
  | Return token_data =>
      match fst (get_user_by_id (TokenData.user_id token_data) db) with
      | None => (Raise credentials_exception, sent SELECT db)
      | Some user =>
          if truthy (User.is_active user)
          then (Return user, sent SELECT db)
          else (Raise inactive_user, sent SELECT db)
      end
  end.
Proof.
  unfold get_current_user, get_user_by_id, select_first; simpl.
  destruct (verify_token now token_str) as [token_data|e]; [|reflexivity].
  destruct (find _ (users db)) as [user|]; [|reflexivity].
  destruct (truthy _); reflexivity.
Qed.

(** C3. For every bearer string: when it does not decode (it is no
    token, its signature is invalid or it is expired) [get_current_user]
    raises 401 "Could not validate credentials"; when it decodes and no
    user has the embedded [user_id], the same 401; when the user found is
    not active, "Inactive user"; otherwise the user found is returned. *)
Theorem get_current_user_outcomes :
  forall (now : datetime) (token_str : string) (db : Session),
    ((parse_token token_str = None
      \/ exists tok failure,
           parse_token token_str = Some tok /\ decode now tok = inl failure)
     -> get_current_user now token_str db = (Raise credentials_exception, db))
    /\ (forall tok claims,
           parse_token token_str = Some tok ->
           decode now tok = inr claims ->
           let found := fst (get_user_by_id (Some (Claims.user_id claims)) db) in
           (found = None ->
            get_current_user now token_str db
            = (Raise credentials_exception, sent SELECT db))
           /\ (forall user,
                  found = Some user -> User.is_active user <> Some true ->
                  get_current_user now token_str db
                  = (Raise inactive_user, sent SELECT db))
           /\ (forall user,
                  found = Some user -> User.is_active user = Some true ->
                  get_current_user now token_str db
                  = (Return user, sent SELECT db))).
Proof.
  intros now token_str db. split.
  - intros [Hp | (tok & failure & Hp & Hd)];
      rewrite get_current_user_unfold; unfold verify_token; rewrite Hp.
    + reflexivity.
    + rewrite Hd. reflexivity.
  - intros tok claims Hp Hd found.
    assert (Hu : get_current_user now token_str db =
                 match found with
                 | None => (Raise credentials_exception, sent SELECT db)
                 | Some user =>
                     if truthy (User.is_active user)
                     then (Return user, sent SELECT db)
                     else (Raise inactive_user, sent SELECT db)
                 end).
    { rewrite get_current_user_unfold. unfold verify_token.
      rewrite Hp, Hd. reflexivity. }
    split; [|split].
    + intro Hf. rewrite Hu, Hf. reflexivity.
    + intros user Hf Ha. rewrite Hu, Hf.
      apply truthy_false in Ha. rewrite Ha. reflexivity.
    + intros user Hf Ha. rewrite Hu, Hf.
      apply truthy_true in Ha. rewrite Ha. reflexivity.
Qed.

(** C5. For every login, [login_user] raises 401 "Incorrect username or
    password" exactly when [authenticate_user] returns [None]; when a user
    is authenticated it returns the access token made for the claims
    [sub] = username, [user_id] = id, [role] = role value, with the marker
    "bearer" and [expires_in] the configured minutes times 60, which is the
    lifetime given to the token, in seconds: the token embeds these claims
    and expires [expires_in] seconds after it is issued.  The session is left
    as [authenticate_user] left it. *)
Theorem login_user_outcomes :
  forall (utcnow db_now issued_at : datetime) (login_data : UserLogin.t) (db : Session),
    let minutes := Settings.ACCESS_TOKEN_EXPIRE_MINUTES settings in
    let authenticated := authenticate_user utcnow db_now login_data db in
    let result := login_user utcnow db_now issued_at login_data db in
    (fst result = Raise incorrect_username_or_password <-> fst authenticated = None)
    /\ (forall user,
           fst authenticated = Some user ->
           let claims := {| Claims.sub := Instance.username user;
                            Claims.user_id := Instance.id user;
                            Claims.role := UserRole_value (Instance.role user) |} in
           let access_token_expires := timedelta_minutes minutes in
           let tok := issue issued_at claims access_token_expires in
           fst result
           = Return {| Token.access_token :=
                         create_access_token issued_at claims access_token_expires;
                       Token.token_type := "bearer";
                       Token.expires_in := minutes * 60 |}
           /\ access_token_expires = minutes * 60
           /\ create_access_token issued_at claims access_token_expires = render_token tok
           /\ SignedToken.claims tok = claims
           /\ SignedToken.exp tok = issued_at + minutes * 60)
    /\ snd result = snd authenticated.
Proof.
  intros utcnow db_now issued_at login_data db minutes authenticated result.
  subst result. unfold login_user. fold authenticated.
  destruct authenticated as [[user|] db']; simpl.
  - split; [split; intro H; discriminate H|]. split; [|reflexivity].
    intros user' Hu. injection Hu as <-.
    split; [|split; [|split; [|split]]]; reflexivity.
  - split; [split; reflexivity|]. split; [|reflexivity].
    intros user' Hu. discriminate Hu.
Qed.

(** C7. For every claim set and every positive lifetime, a token
    issued for the claims and decoded before its expiry gives back exactly
    the claims. *)
Theorem decode_issue_round_trip :
  forall (issued_at now : datetime) (claims : Claims.t) (ttl : Z),
    0 < ttl ->
    now < issued_at + ttl ->
    decode now (issue issued_at claims ttl) = inr claims.
Proof.
  intros issued_at now claims ttl Httl Hnow.
  unfold decode, issue; simpl.
  rewrite String.eqb_refl.
  destruct (Z.leb_spec (issued_at + ttl) now) as [Hle|Hlt]; [lia|reflexivity].
Qed.

(** Past the expiry the same token is [Expired]. *)
Lemma decode_issue_expired (issued_at now : datetime) (claims : Claims.t) (ttl : Z) :
  issued_at + ttl <= now ->
  decode now (issue issued_at claims ttl) = inl Expired.
Proof.
  intro H. unfold decode, issue; simpl.
  rewrite String.eqb_refl.
  destruct (Z.leb_spec (issued_at + ttl) now) as [Hle|Hlt]; [reflexivity|lia].
Qed.

(** A token whose signature is not the one of its claims and expiry is
    rejected whatever its expiry. *)
Lemma decode_altered_signature (now : datetime) (tok : SignedToken.t) :
  SignedToken.signature tok
  <> sign (Settings.SECRET_KEY settings) (SignedToken.claims tok) (SignedToken.exp tok) ->
  decode now tok = inl InvalidSignature.
Proof.
  intro H. unfold decode.
  apply String.eqb_neq in H. rewrite H. reflexivity.
Qed.

(** With a wire format that reads back what it writes, the round trip
    holds on bearer strings. *)
Lemma verify_token_create_access_token
      (issued_at now : datetime) (claims : Claims.t) (ttl : Z) :
  (forall tok, parse_token (render_token tok) = Some tok) ->
  now < issued_at + ttl ->
  verify_token now (create_access_token issued_at claims ttl)
  = Return {| TokenData.username := Some (Claims.sub claims);
              TokenData.user_id := Some (Claims.user_id claims);
              TokenData.role := Some (Claims.role claims) |}.
Proof.
  intros Hwire Hnow. unfold verify_token, create_access_token.
  rewrite Hwire. unfold decode, issue; simpl.
  rewrite String.eqb_refl.
  destruct (Z.leb_spec (issued_at + ttl) now) as [Hle|Hlt]; [lia|reflexivity].
Qed.

Lemma taken_iff_found (user_data : UserCreate.t) (db : Session) :
  username_or_email_taken user_data db
  <-> find (fun u => (String.eqb (User.username u) (UserCreate.username user_data)
                      || String.eqb (User.email u) (UserCreate.email user_data))%bool)
           (users db) <> None.
Proof.
  unfold username_or_email_taken. split.
  - intros (u & Hin & Hu) Hnone.
    apply (find_none _ _ Hnone) in Hin.
    apply orb_false_elim in Hin. destruct Hin as [Hn He].
    apply String.eqb_neq in Hn. apply String.eqb_neq in He.
    destruct Hu; contradiction.
  - intro Hfound.
    destruct (find _ (users db)) as [u|] eqn:Hf; [|contradiction].
    apply find_some in Hf. destruct Hf as [Hin Hp].
    exists u. split; [exact Hin|].
    apply orb_prop in Hp.
    destruct Hp as [Hp|Hp]; apply String.eqb_eq in Hp; auto.
Qed.

Lemma fits_columns_of_user_data (user_data : UserCreate.t) (hashed_password : string) :
  fits_columns
    {| User.kw_username := UserCreate.username user_data;
       User.kw_email := UserCreate.email user_data;
       User.kw_hashed_password := hashed_password;
       User.kw_full_name := UserCreate.full_name user_data;
       User.kw_role := Some (UserCreate.role user_data);
       User.kw_is_active := Some (UserCreate.is_active user_data);
       User.kw_is_verified := None |} = true
  <-> fits_table user_data.
Proof.
  unfold fits_columns, fits_table; simpl.
  rewrite !andb_true_iff, !Nat.leb_le.
  destruct (UserCreate.full_name user_data) as [full_name|].
  - rewrite Nat.leb_le. split.
    + intros [[Hu He] Hf]. split; [exact Hu|split; [exact He|exact Hf]].
    + intros (Hu & He & Hf). split; [split; [exact Hu|exact He]|exact Hf].
  - split.
    + intros [[Hu He] _]. split; [exact Hu|split; [exact He|exact I]].
    + intros (Hu & He & _). split; [split; [exact Hu|exact He]|reflexivity].
Qed.

(** What [create_user] does, in the order of the code. *)
Lemma create_user_unfold (salt : string) (db_now : datetime) (user_data : UserCreate.t)
      (db : Session) :
  create_user salt db_now user_data db =
  match find (fun u => (String.eqb (User.username u) (UserCreate.username user_data)
                        || String.eqb (User.email u) (UserCreate.email user_data))%bool)
             (users db) with
  | Some _ => (Raise already_registered, sent SELECT db)
  | None =>
      match add_commit_refresh db_now
              {| User.kw_username := UserCreate.username user_data;
                 User.kw_email := UserCreate.email user_data;
                 User.kw_hashed_password :=
                   get_password_hash salt (UserCreate.password user_data);
                 User.kw_full_name := UserCreate.full_name user_data;
                 User.kw_role := Some (UserCreate.role user_data);
                 User.kw_is_active := Some (UserCreate.is_active user_data);
                 User.kw_is_verified := None |} (sent SELECT db) with
      | (Some db_user, db') => (Return db_user, db')
      | (None, db') => (Raise DataError, db')
      end
  end.
Proof.
  unfold create_user, select_first.
  destruct (find _ (users db)); reflexivity.
Qed.

(** C4, as the code has it. [create_user] raises 400 "Username or email
    already registered" exactly when a row has the same username or the same
    email, and then writes nothing.  Otherwise, when the registration data fit
    the columns of the table, it appends one row and returns it, with the
    hasher's output on the password as [hashed_password], the role and
    [is_active] of the registration data, and its username, email and full
    name; when they do not fit, the INSERT fails, the database error is
    raised and nothing is written.  [UserCreate] accepts the data within its
    bounds with the role VIEWER and [is_active] true when they are not given,
    and bounds the username and the full name by their columns but not the
    address: accepted data fit the table exactly when the address has at most
    100 characters. *)
Theorem create_user_outcomes :
  forall (salt : string) (db_now : datetime) (user_data : UserCreate.t) (db : Session),
    let result := create_user salt db_now user_data db in
    (fst result = Raise already_registered <-> username_or_email_taken user_data db)
    /\ (username_or_email_taken user_data db -> users (snd result) = users db)
    /\ (~ username_or_email_taken user_data db ->
        fits_table user_data ->
        exists user,
          fst result = Return user
          /\ users (snd result) = (users db ++ [user])%list
          /\ User.hashed_password user
             = get_password_hash salt (UserCreate.password user_data)
          /\ User.role user = UserCreate.role user_data
          /\ User.is_active user = Some (UserCreate.is_active user_data)
          /\ User.username user = UserCreate.username user_data
          /\ User.email user = UserCreate.email user_data
          /\ User.full_name user = UserCreate.full_name user_data)
    /\ (~ username_or_email_taken user_data db ->
        ~ fits_table user_data ->
        fst result = Raise DataError /\ users (snd result) = users db)
    /\ (forall username email normalised password full_name role is_active,
           length_between 3 50 username = true ->
           optional_max_length 100 full_name = true ->
           length_between 8 100 password = true ->
           validate_email email = Some normalised ->
           UserCreate_init username email password full_name role is_active
           = Some {| UserCreate.username := username;
                     UserCreate.email := normalised;
                     UserCreate.full_name := full_name;
                     UserCreate.role := match role with Some r => r | None => VIEWER end;
                     UserCreate.is_active :=
                       match is_active with Some a => a | None => true end;
                     UserCreate.password := password |})
    /\ (forall username email password full_name role is_active data,
           UserCreate_init username email password full_name role is_active = Some data ->
           (fits_table data <-> (String.length (UserCreate.email data) <= 100)%nat)).
Proof.
  intros salt db_now user_data db result.
  pose proof (taken_iff_found user_data db) as Htaken.
  pose proof (fits_columns_of_user_data user_data
                (get_password_hash salt (UserCreate.password user_data))) as Hfits.
  subst result. rewrite create_user_unfold. unfold add_commit_refresh.
  split; [|split; [|split; [|split; [|split]]]].
  - destruct (find _ (users db)) as [u|] eqn:Hf.
    + split; [intros _; apply Htaken; discriminate|reflexivity].
    + split; [|intro H; apply Htaken in H; contradiction].
      destruct (fits_columns _); discriminate.
  - intro H. apply Htaken in H.
    destruct (find _ (users db)) as [u|]; [reflexivity|contradiction].
  - intros Hn Hf.
    destruct (find _ (users db)) as [u|] eqn:Hfind;
      [exfalso; apply Hn, Htaken; discriminate|].
    apply Hfits in Hf. rewrite Hf. eexists. repeat split.
  - intros Hn Hf.
    destruct (find _ (users db)) as [u|] eqn:Hfind;
      [exfalso; apply Hn, Htaken; discriminate|].
    destruct (fits_columns _) eqn:Hc; [exfalso; apply Hf, Hfits; reflexivity|].
    split; reflexivity.
  - intros username email normalised password full_name role is_active Hu Hf Hp He.
    unfold UserCreate_init. rewrite Hu, Hf, Hp, He. simpl.
    destruct role, is_active; reflexivity.
  - intros username email password full_name role is_active data Hinit.
    unfold UserCreate_init in Hinit.
    destruct (length_between 3 50 username) eqn:Hu; [|discriminate].
    destruct (optional_max_length 100 full_name) eqn:Hf; [|discriminate].
    destruct (length_between 8 100 password); [|discriminate]. simpl in Hinit.
    destruct (validate_email email) as [e|]; [|discriminate].
    injection Hinit as <-. unfold fits_table; simpl.
    unfold length_between in Hu. apply andb_true_iff in Hu. destruct Hu as [_ Hu].
    apply Nat.leb_le in Hu.
    destruct full_name as [full_name|]; simpl in Hf.
    + apply Nat.leb_le in Hf. split.
      * intros (_ & He & _). exact He.
      * intro He. split; [exact Hu|split; [exact He|exact Hf]].
    + split.
      * intros (_ & He & _). exact He.
      * intro He. split; [exact Hu|split; [exact He|exact I]].
Qed.

(** The dependencies only look up: the session they leave is the one
    they got, after at most one SELECT. *)
Lemma get_current_user_session (now : datetime) (token_str : string) (db : Session) :
  snd (get_current_user now token_str db) = db
  \/ snd (get_current_user now token_str db) = sent SELECT db.
Proof.
  rewrite get_current_user_unfold.
  destruct (verify_token now token_str) as [token_data|e]; [|left; reflexivity].
  destruct (fst (get_user_by_id _ db)) as [user|]; [|right; reflexivity].
  destruct (truthy _); right; reflexivity.
Qed.

Lemma depends_current_active_user_session
      (now : datetime) (token_str : string) (db : Session) :
  snd (depends_current_active_user now token_str db) = db
  \/ snd (depends_current_active_user now token_str db) = sent SELECT db.
Proof.
  unfold depends_current_active_user, bind, lift.
  pose proof (get_current_user_session now token_str db) as H.
  destruct (get_current_user now token_str db) as [[user|e] db1]; exact H.
Qed.

Lemma depends_role_checker_session
      (required_role : UserRole) (now : datetime) (token_str : string) (db : Session) :
  snd (depends_role_checker (require_role required_role) now token_str db) = db
  \/ snd (depends_role_checker (require_role required_role) now token_str db) = sent SELECT db.
Proof.
  unfold depends_role_checker, bind, lift.
  pose proof (depends_current_active_user_session now token_str db) as H.
  destruct (depends_current_active_user now token_str db) as [[user|e] db1]; exact H.
Qed.

(** C10. Every user created by [create_user] has [is_verified] False:
    the registration data has no such field, the constructor call does not
    pass it and the column default applies.  Through [register] as well, a
    row that was not in the table before has [is_verified] False, and so
    has the view sent back. *)
Theorem create_user_is_not_verified :
  forall (salt : string) (db_now : datetime) (user_data : UserCreate.t)
         (db db' : Session) (user : User.t),
    create_user salt db_now user_data db = (Return user, db') ->
    User.is_verified user = Some false
    /\ users db' = (users db ++ [user])%list
    /\ (forall now token_str,
           let response := register now salt db_now token_str user_data db in
           (forall u, In u (users (snd response)) ->
                      In u (users db) \/ User.is_verified u = Some false)
           /\ (forall status view,
                  fst response = Success status view ->
                  UserResponse.is_verified view = false)).
Proof.
  intros salt db_now user_data db db' user Hc.
  assert (Hv : User.is_verified user = Some false
               /\ users db' = (users db ++ [user])%list).
  { rewrite create_user_unfold in Hc. unfold add_commit_refresh in Hc.
    destruct (find _ (users db)); [discriminate|].
    destruct (fits_columns _); [|discriminate].
    injection Hc as <- <-. simpl. split; reflexivity. }
  destruct Hv as [Hv Hu]. split; [exact Hv|]. split; [exact Hu|].
  intros now token_str response. subst response.
  unfold register, require_admin, bind.
  pose proof (depends_role_checker_session ADMIN now token_str db) as Hs.
  destruct (depends_role_checker (require_role ADMIN) now token_str db) as [[admin|e] db1];
    simpl in Hs.
  - assert (Hus : users db1 = users db) by (destruct Hs; subst db1; reflexivity).
    rewrite create_user_unfold in Hc |- *. unfold add_commit_refresh in Hc |- *.
    rewrite Hus.
    destruct (find _ (users db)); [discriminate|].
    destruct (fits_columns _); [|discriminate]. simpl.
    split.
    + destruct (UserResponse_from_attributes _); simpl; rewrite Hus;
        intros u Hin; apply in_app_or in Hin;
        (destruct Hin as [Hin|[<-|[]]]; [left; exact Hin|right; reflexivity]).
    + intros status view.
      unfold UserResponse_from_attributes; simpl.
      destruct (_ && _)%bool; [|discriminate].
      destruct (validate_email _); [|discriminate].
      intro Heq. injection Heq as _ <-. reflexivity.
  - split.
    + intros u Hin. left. destruct e; simpl in Hin; destruct Hs; subst db1; exact Hin.
    + intros status view Heq. destruct e; discriminate Heq.
Qed.

Lemma commit_last_login_rows (uid : Z) (t db_now : datetime) (db : Session) :
  Forall2 (fun r r' =>
             (User.id r = uid /\ r' = User.touch_last_login t db_now r)
             \/ (User.id r <> uid /\ r' = r))
          (users db) (users (commit_last_login uid t db_now db)).
Proof.
  unfold commit_last_login; simpl.
  induction (users db) as [|r rows IH]; simpl; constructor; [|exact IH].
  destruct (Z.eqb_spec (User.id r) uid); [left|right]; split; auto.
Qed.

(** C6, as the code has it. When [authenticate_user] succeeds, the
    user returned has [last_login] the current time, and in the table the row
    of that user carries it together with [updated_at] the database time of
    the UPDATE (on the instance returned, which is not refreshed, [updated_at]
    is expired); every row keeps all its other columns and the rows with
    another id are untouched.  When it returns [None] the table and the key
    sequence are as before and the only statement sent is the lookup. *)
Theorem authenticate_user_frame :
  forall (utcnow db_now : datetime) (login_data : UserLogin.t) (db : Session),
    match authenticate_user utcnow db_now login_data db with
    | (Some user, db') =>
        Instance.last_login user = Some utcnow
        /\ Instance.updated_at user = ExpiredAttribute
        /\ In (Instance.to_row (Some db_now) user) (users db')
        /\ Forall2 (fun r r' =>
                      same_but_login_times r r'
                      /\ (User.id r <> Instance.id user -> r' = r)
                      /\ (User.id r = Instance.id user ->
                          User.last_login r' = Some utcnow
                          /\ User.updated_at r' = Some db_now))
                   (users db) (users db')
        /\ id_seq db' = id_seq db
    | (None, db') =>
        users db' = users db
        /\ id_seq db' = id_seq db
        /\ statements db' = (statements db ++ [SELECT])%list
    end.
Proof.
  intros utcnow db_now login_data db.
  rewrite authenticate_user_unfold.
  unfold get_user_by_username, select_first; simpl.
  destruct (find _ (users db)) as [row|] eqn:Hf; [|repeat split].
  destruct (verify_password _ _); [|repeat split].
  destruct (truthy _); [|repeat split].
  apply find_some in Hf. destruct Hf as [Hin _].
  split; [reflexivity|]. split; [reflexivity|]. split; [|split; [|reflexivity]].
  - unfold commit_last_login; simpl.
    apply in_map_iff. exists row. split; [|exact Hin].
    rewrite Z.eqb_refl. reflexivity.
  - pose proof (commit_last_login_rows (User.id row) utcnow db_now (sent SELECT db)) as H.
    simpl in H |- *.
    eapply Forall2_impl; [|exact H].
    intros r r' [[Hid ->] | [Hid ->]]; simpl; unfold same_but_login_times.
    + split; [reflexivity|]. split; [intro Hn; contradiction|].
      intros _. split; reflexivity.
    + split; [reflexivity|]. split; [reflexivity|].
      intro He; contradiction.
Qed.

Lemma create_user_raise (salt : string) (db_now : datetime) (user_data : UserCreate.t)
      (db : Session) (e : Exception) :
  fst (create_user salt db_now user_data db) = Raise e ->
  (e = already_registered
   /\ username_or_email_taken user_data db
   /\ snd (create_user salt db_now user_data db) = sent SELECT db)
  \/ (e = DataError
      /\ ~ fits_table user_data
      /\ users (snd (create_user salt db_now user_data db)) = users db).
Proof.
  pose proof (taken_iff_found user_data db) as Htaken.
  pose proof (fits_columns_of_user_data user_data
                (get_password_hash salt (UserCreate.password user_data))) as Hfits.
  rewrite create_user_unfold. unfold add_commit_refresh.
  destruct (find _ (users db)) as [u|] eqn:Hf.
  - simpl. intro H. injection H as <-. left.
    split; [reflexivity|]. split; [apply Htaken; discriminate|reflexivity].
  - destruct (fits_columns _) eqn:Hc; simpl; intro H; [discriminate H|].
    injection H as <-. right. split; [reflexivity|]. split; [|reflexivity].
    intro Hft. apply Hfits in Hft. discriminate Hft.
Qed.

Lemma login_user_raise (utcnow db_now issued_at : datetime) (login_data : UserLogin.t)
      (db : Session) (e : Exception) :
  fst (login_user utcnow db_now issued_at login_data db) = Raise e ->
  e = incorrect_username_or_password
  /\ snd (login_user utcnow db_now issued_at login_data db) = sent SELECT db.
Proof.
  unfold login_user. rewrite authenticate_user_unfold.
  destruct (fst (get_user_by_username _ db)) as [user|].
  - destruct (verify_password _ _).
    + destruct (truthy _); simpl; intro H; [discriminate H|].
      injection H as <-. split; reflexivity.
    + simpl; intro H. injection H as <-. split; reflexivity.
  - simpl; intro H. injection H as <-. split; reflexivity.
Qed.

Lemma get_current_user_raise (now : datetime) (token_str : string) (db : Session)
      (e : Exception) :
  fst (get_current_user now token_str db) = Raise e ->
  e = credentials_exception \/ e = inactive_user.
Proof.
  rewrite get_current_user_unfold. unfold verify_token.
  destruct (parse_token token_str) as [tok|].
  - destruct (decode now tok) as [failure|claims].
    + simpl; intro H. injection H as <-. left; reflexivity.
    + destruct (fst (get_user_by_id _ db)) as [user|].
      * destruct (truthy _); simpl; intro H; [discriminate H|].
        injection H as <-. right; reflexivity.
      * simpl; intro H. injection H as <-. left; reflexivity.
  - simpl; intro H. injection H as <-. left; reflexivity.
Qed.

Lemma get_current_active_user_raise (current_user : User.t) (e : Exception) :
  get_current_active_user current_user = Raise e -> e = inactive_user.
Proof.
  unfold get_current_active_user.
  destruct (negb _); intro H; [|discriminate H].
  injection H as <-. reflexivity.
Qed.

Lemma require_role_raise (required_role : UserRole) (current_user : User.t)
      (e : Exception) :
  require_role required_role current_user = Raise e -> e = not_enough_permissions.
Proof.
  unfold require_role.
  destruct (_ && _)%bool; intro H; [|discriminate H].
  injection H as <-. reflexivity.
Qed.

Lemma depends_current_active_user_raise
      (now : datetime) (token_str : string) (db : Session) (e : Exception) :
  fst (depends_current_active_user now token_str db) = Raise e ->
  e = credentials_exception \/ e = inactive_user.
Proof.
  unfold depends_current_active_user, bind, lift.
  pose proof (get_current_user_raise now token_str db) as Hg.
  destruct (get_current_user now token_str db) as [[user|e'] db1]; simpl in *.
  - intro H. right. exact (get_current_active_user_raise _ _ H).
  - intro H. injection H as <-. apply Hg. reflexivity.
Qed.

Lemma depends_role_checker_raise (required_role : UserRole)
      (now : datetime) (token_str : string) (db : Session) (e : Exception) :
  fst (depends_role_checker (require_role required_role) now token_str db) = Raise e ->
  e = credentials_exception \/ e = inactive_user \/ e = not_enough_permissions.
Proof.
  unfold depends_role_checker, bind, lift.
  pose proof (depends_current_active_user_raise now token_str db) as Hg.
  destruct (depends_current_active_user now token_str db) as [[user|e'] db1];
    simpl in *.
  - intro H. right; right. exact (require_role_raise _ _ _ H).
  - intro H. injection H as <-.
    destruct (Hg e' eq_refl); [left|right; left]; assumption.
Qed.

Lemma only_lookups_same (db : Session) : only_lookups db db.
Proof.
  split; [reflexivity|]. split; [reflexivity|].
  exists 0%nat. split; [lia|]. simpl. rewrite app_nil_r. reflexivity.
Qed.

Lemma only_lookups_sent (db db' : Session) :
  db' = db \/ db' = sent SELECT db ->
  only_lookups db db' /\ only_lookups db (sent SELECT db').
Proof.
  intros [-> | ->]; split.
  - apply only_lookups_same.
  - split; [reflexivity|]. split; [reflexivity|].
    exists 1%nat. split; [lia|]. reflexivity.
  - split; [reflexivity|]. split; [reflexivity|].
    exists 1%nat. split; [lia|]. reflexivity.
  - split; [reflexivity|]. split; [reflexivity|].
    exists 2%nat. split; [lia|]. simpl. rewrite <- app_assoc. reflexivity.
Qed.

(** *** What a response can depend on *)

Lemma find_without_hash (p : User.t -> bool) (rows1 rows2 : list User.t) :
  (forall u, p (User.without_hash u) = p u) ->
  map User.without_hash rows1 = map User.without_hash rows2 ->
  option_map User.without_hash (find p rows1)
  = option_map User.without_hash (find p rows2).
Proof.
  intro Hp. revert rows2.
  induction rows1 as [|r1 rows1 IH]; intros [|r2 rows2] Hmap;
    cbn [map find option_map] in *; try discriminate; [reflexivity|].
  assert (Hr : User.without_hash r1 = User.without_hash r2) by congruence.
  assert (Hrows : map User.without_hash rows1 = map User.without_hash rows2)
    by congruence.
  rewrite <- (Hp r1), <- (Hp r2), Hr.
  destruct (p (User.without_hash r2)); cbn [option_map]; [congruence|].
  apply IH, Hrows.
Qed.

Lemma UserResponse_from_attributes_without_hash (u : User.t) :
  UserResponse_from_attributes (User.without_hash u) = UserResponse_from_attributes u.
Proof. reflexivity. Qed.

Lemma UserResponse_from_attributes_same (u1 u2 : User.t) :
  User.without_hash u1 = User.without_hash u2 ->
  UserResponse_from_attributes u1 = UserResponse_from_attributes u2.
Proof.
  intro H.
  rewrite <- (UserResponse_from_attributes_without_hash u1), H.
  apply UserResponse_from_attributes_without_hash.
Qed.

Lemma respond_user_same (status : Z) (r1 r2 : Result User.t * Session) :
  same_outcome_but_hash (fst r1) (fst r2) ->
  fst (respond_user status r1) = fst (respond_user status r2).
Proof.
  destruct r1 as [[u1|e1] s1], r2 as [[u2|e2] s2]; simpl; intro H;
    try contradiction.
  - rewrite (UserResponse_from_attributes_same u1 u2 H).
    destruct (UserResponse_from_attributes u2); reflexivity.
  - rewrite H. reflexivity.
Qed.

Lemma get_current_user_same (now : datetime) (token_str : string) (db1 db2 : Session) :
  same_but_hashes db1 db2 ->
  same_outcome_but_hash (fst (get_current_user now token_str db1))
                        (fst (get_current_user now token_str db2))
  /\ same_but_hashes (snd (get_current_user now token_str db1))
                     (snd (get_current_user now token_str db2)).
Proof.
  intro H. rewrite !get_current_user_unfold.
  destruct (verify_token now token_str) as [token_data|e];
    [|split; [reflexivity|exact H]].
  unfold get_user_by_id, select_first; simpl.
  pose proof (find_without_hash
                (fun u => match TokenData.user_id token_data with
                          | Some i => User.id u =? i
                          | None => false
                          end)
                (users db1) (users db2) (fun u => eq_refl) (proj1 H)) as Hf.
  destruct (find _ (users db1)) as [u1|], (find _ (users db2)) as [u2|];
    cbn [option_map] in Hf; try discriminate Hf.
  - assert (Hu : User.without_hash u1 = User.without_hash u2) by congruence.
    pose proof (f_equal User.is_active Hu) as Ha. simpl in Ha. rewrite Ha.
    destruct (truthy (User.is_active u2)); split;
      solve [exact Hu | reflexivity | exact H].
  - split; [reflexivity|exact H].
Qed.

Lemma depends_current_active_user_same
      (now : datetime) (token_str : string) (db1 db2 : Session) :
  same_but_hashes db1 db2 ->
  same_outcome_but_hash (fst (depends_current_active_user now token_str db1))
                        (fst (depends_current_active_user now token_str db2))
  /\ same_but_hashes (snd (depends_current_active_user now token_str db1))
                     (snd (depends_current_active_user now token_str db2)).
Proof.
  intro H. unfold depends_current_active_user, bind, lift.
  destruct (get_current_user_same now token_str db1 db2 H) as [Ho Hs].
  destruct (get_current_user now token_str db1) as [[u1|e1] s1],
           (get_current_user now token_str db2) as [[u2|e2] s2];
    simpl in Ho, Hs |- *; try contradiction.
  - split; [|exact Hs]. unfold get_current_active_user.
    pose proof (f_equal User.is_active Ho) as Ha. simpl in Ha. rewrite Ha.
    destruct (truthy (User.is_active u2)); simpl; [exact Ho|reflexivity].
  - split; [exact Ho|exact Hs].
Qed.

Lemma depends_role_checker_same (required_role : UserRole)
      (now : datetime) (token_str : string) (db1 db2 : Session) :
  same_but_hashes db1 db2 ->
  same_outcome_but_hash (fst (depends_role_checker (require_role required_role) now token_str db1))
                        (fst (depends_role_checker (require_role required_role) now token_str db2))
  /\ same_but_hashes (snd (depends_role_checker (require_role required_role) now token_str db1))
                     (snd (depends_role_checker (require_role required_role) now token_str db2)).
Proof.
  intro H. unfold depends_role_checker, bind, lift.
  destruct (depends_current_active_user_same now token_str db1 db2 H) as [Ho Hs].
  destruct (depends_current_active_user now token_str db1) as [[u1|e1] s1],
           (depends_current_active_user now token_str db2) as [[u2|e2] s2];
    simpl in Ho, Hs |- *; try contradiction.
  - split; [|exact Hs]. unfold require_role.
    pose proof (f_equal User.role Ho) as Hr. simpl in Hr. rewrite Hr.
    destruct (_ && _)%bool; simpl; [reflexivity|exact Ho].
  - split; [exact Ho|exact Hs].
Qed.

(** ** Further properties of the service *)

Lemma find_map_preserving (p : User.t -> bool) (f : User.t -> User.t) (rows : list User.t) :
  (forall u, p (f u) = p u) ->
  find p (map f rows) = option_map f (find p rows).
Proof.
  intro Hp. induction rows as [|r rows IH]; cbn [map find option_map]; [reflexivity|].
  rewrite Hp. destruct (p r); [reflexivity|exact IH].
Qed.

Lemma find_app_none (p : User.t -> bool) (rows rows' : list User.t) :
  find p rows = None -> find p (rows ++ rows') = find p rows'.
Proof.
  induction rows as [|r rows IH]; simpl; [reflexivity|].
  destruct (p r); [discriminate|exact IH].
Qed.

Lemma NoDup_map_snoc {B : Type} (f : User.t -> B) (rows : list User.t) (row : User.t) :
  NoDup (map f rows) -> ~ In (f row) (map f rows) -> NoDup (map f (rows ++ [row])).
Proof.
  intros Hnd Hnin. rewrite map_app. simpl.
  apply NoDup_app; [exact Hnd|repeat constructor; intros []|].
  intros b Hb [<- | []]. exact (Hnin Hb).
Qed.

Lemma find_by_unique_id (rows : list User.t) (row : User.t) :
  NoDup (map User.id rows) -> In row rows ->
  find (fun u => User.id u =? User.id row) rows = Some row.
Proof.
  induction rows as [|r rows IH]; simpl; intros Hnd Hin; [contradiction|].
  inversion Hnd as [|i ids Hnotin Hnd']; subst.
  destruct Hin as [-> | Hin].
  - rewrite Z.eqb_refl. reflexivity.
  - destruct (Z.eqb_spec (User.id r) (User.id row)) as [Heq|Hneq].
    + exfalso. apply Hnotin. rewrite Heq. apply in_map. exact Hin.
    + apply IH; assumption.
Qed.

Lemma commit_last_login_columns (uid : Z) (t db_now : datetime) (db : Session) :
  map User.id (users (commit_last_login uid t db_now db)) = map User.id (users db)
  /\ map User.username (users (commit_last_login uid t db_now db))
     = map User.username (users db)
  /\ map User.email (users (commit_last_login uid t db_now db))
     = map User.email (users db).
Proof.
  unfold commit_last_login; simpl. rewrite !map_map.
  repeat split; apply map_ext; intro r; destruct (User.id r =? uid); reflexivity.
Qed.

(** X1. [create_user] keeps the constraints of the table: after it, ids,
    usernames and emails are still unique and every id is within the
    sequence; the INSERT that follows its check cannot hit a unique index. *)
Theorem create_user_keeps_table_constraints :
  forall (salt : string) (db_now : datetime) (user_data : UserCreate.t) (db : Session),
    table_constraints db ->
    table_constraints (snd (create_user salt db_now user_data db)).
Proof.
  intros salt db_now user_data db (Hid & Hname & Hemail & Hseq).
  rewrite create_user_unfold. unfold add_commit_refresh.
  destruct (find _ (users db)) as [u|] eqn:Hf.
  - repeat split; assumption.
  - assert (Hfree : forall u, In u (users db) ->
                      User.username u <> UserCreate.username user_data
                      /\ User.email u <> UserCreate.email user_data).
    { intros u Hin. apply (find_none _ _ Hf) in Hin.
      apply orb_false_elim in Hin. destruct Hin as [Hn He].
      apply String.eqb_neq in Hn. apply String.eqb_neq in He. split; assumption. }
    destruct (fits_columns _); cbn [snd]; unfold table_constraints;
      cbn [users id_seq sent];
      [|split; [exact Hid|split; [exact Hname|split; [exact Hemail|]]];
        eapply Forall_impl; [|exact Hseq]; simpl; intros r Hr; lia].
    split; [|split; [|split]].
    + apply NoDup_map_snoc; [exact Hid|]. simpl.
      intro Hin. apply in_map_iff in Hin. destruct Hin as (u & Hu & Hin).
      rewrite Forall_forall in Hseq. specialize (Hseq u Hin). lia.
    + apply NoDup_map_snoc; [exact Hname|]. simpl.
      intro Hin. apply in_map_iff in Hin. destruct Hin as (u & Hu & Hin).
      exact (proj1 (Hfree u Hin) Hu).
    + apply NoDup_map_snoc; [exact Hemail|]. simpl.
      intro Hin. apply in_map_iff in Hin. destruct Hin as (u & Hu & Hin).
      exact (proj2 (Hfree u Hin) Hu).
    + apply Forall_app. split.
      * eapply Forall_impl; [|exact Hseq]. simpl. intros u Hu. lia.
      * constructor; [simpl; lia|constructor].
Qed.

(** X2. [authenticate_user] keeps the constraints of the table, whether it
    succeeds or not: the UPDATE of a login changes no id, username or
    email. *)
Theorem authenticate_user_keeps_table_constraints :
  forall (utcnow db_now : datetime) (login_data : UserLogin.t) (db : Session),
    table_constraints db ->
    table_constraints (snd (authenticate_user utcnow db_now login_data db)).
Proof.
  intros utcnow db_now login_data db (Hid & Hname & Hemail & Hseq).
  rewrite authenticate_user_unfold.
  destruct (fst (get_user_by_username _ db)) as [user|];
    [|repeat split; assumption].
  destruct (verify_password _ _); [|repeat split; assumption].
  destruct (truthy _); [|repeat split; assumption].
  destruct (commit_last_login_columns (User.id user) utcnow db_now (sent SELECT db))
    as (Ei & En & Ee).
  unfold table_constraints. cbn [snd]. rewrite Ei, En, Ee.
  split; [exact Hid|]. split; [exact Hname|]. split; [exact Hemail|].
  unfold commit_last_login; simpl.
  apply Forall_map. eapply Forall_impl; [|exact Hseq].
  intros r Hr. simpl. destruct (User.id r =? User.id user); exact Hr.
Qed.

Lemma depends_current_active_user_eq (now : datetime) (token_str : string) (db : Session) :
  depends_current_active_user now token_str db = get_current_user now token_str db.
Proof.
  unfold depends_current_active_user, bind, lift.
  rewrite get_current_user_unfold.
  destruct (verify_token now token_str) as [token_data|e]; [|reflexivity].
  destruct (fst (get_user_by_id _ db)) as [user|]; [|reflexivity].
  unfold get_current_active_user.
  destruct (truthy (User.is_active user)) eqn:Ha; simpl; [|reflexivity].
  rewrite Ha. reflexivity.
Qed.

(** X3. The second activity check is never the one that fails:
    [get_current_active_user] behind [get_current_user] gives exactly what
    [get_current_user] gives, on every token and every table. *)
Theorem depends_current_active_user_is_get_current_user :
  forall (now : datetime) (token_str : string) (db : Session),
    depends_current_active_user now token_str db = get_current_user now token_str db.
Proof. exact depends_current_active_user_eq. Qed.

Lemma authenticate_user_return
      (utcnow db_now : datetime) (login_data : UserLogin.t) (db db' : Session)
      (user : Instance.t) :
  authenticate_user utcnow db_now login_data db = (Some user, db') ->
  exists row,
    fst (get_user_by_username (UserLogin.username login_data) db) = Some row
    /\ In row (users db)
    /\ User.username row = UserLogin.username login_data
    /\ verify_password (UserLogin.password login_data) (User.hashed_password row) = true
    /\ User.is_active row = Some true
    /\ user = Instance.assign_last_login utcnow (Instance.of_row row)
    /\ db' = commit_last_login (User.id row) utcnow db_now (sent SELECT db).
Proof.
  rewrite authenticate_user_unfold.
  unfold get_user_by_username, select_first; cbn [fst].
  destruct (find _ (users db)) as [row|] eqn:Hf; [|discriminate].
  destruct (verify_password _ _) eqn:Hv; [|discriminate].
  destruct (truthy _) eqn:Ha; [|discriminate].
  intro H. injection H as <- <-.
  apply find_some in Hf. destruct Hf as [Hin Hname].
  apply String.eqb_eq in Hname. apply truthy_true in Ha.
  exists row. repeat split; assumption.
Qed.

Lemma get_current_user_return
      (now : datetime) (token_str : string) (db db' : Session) (user : User.t) :
  get_current_user now token_str db = (Return user, db') ->
  In user (users db)
  /\ User.is_active user = Some true
  /\ (exists token_data,
         verify_token now token_str = Return token_data
         /\ TokenData.user_id token_data = Some (User.id user))
  /\ db' = sent SELECT db.
Proof.
  rewrite get_current_user_unfold.
  destruct (verify_token now token_str) as [token_data|e]; [|discriminate].
  unfold get_user_by_id, select_first; cbn [fst].
  destruct (find _ (users db)) as [row|] eqn:Hf; [|discriminate].
  destruct (truthy _) eqn:Ha; [|discriminate].
  intro H. injection H as <- <-.
  apply find_some in Hf. destruct Hf as [Hin Hid].
  apply truthy_true in Ha.
  split; [exact Hin|]. split; [exact Ha|]. split; [|reflexivity].
  exists token_data. split; [reflexivity|].
  destruct (TokenData.user_id token_data) as [i|]; [|discriminate].
  apply Z.eqb_eq in Hid. rewrite Hid. reflexivity.
Qed.

Lemma depends_role_checker_return
      (required_role : UserRole) (now : datetime) (token_str : string)
      (db db' : Session) (user : User.t) :
  depends_role_checker (require_role required_role) now token_str db = (Return user, db') ->
  get_current_user now token_str db = (Return user, db')
  /\ (User.role user = required_role \/ User.role user = ADMIN).
Proof.
  unfold depends_role_checker, bind, lift.
  rewrite depends_current_active_user_eq.
  destruct (get_current_user now token_str db) as [[current_user|e] db1];
    [|discriminate].
  unfold require_role.
  destruct (negb (UserRole_eqb (User.role current_user) required_role)) eqn:Hr;
    destruct (negb (UserRole_eqb (User.role current_user) ADMIN)) eqn:Ha;
    simpl; try discriminate; intro H; injection H as <- <-;
    (split; [reflexivity|]).
  - right. apply negb_false_iff in Ha. apply UserRole_eqb_eq. exact Ha.
  - left. apply negb_false_iff in Hr. apply UserRole_eqb_eq. exact Hr.
  - left. apply negb_false_iff in Hr. apply UserRole_eqb_eq. exact Hr.
Qed.

(** X4. [authenticate_user] returns a user only for the first row with the
    username of the login data, only when the password verifies against the
    hash stored in that row and the row is active; the user returned is the
    instance of that row with [last_login] the current time and, as it is not
    refreshed after the UPDATE, [updated_at] expired. *)
Theorem authenticate_user_sound :
  forall (utcnow db_now : datetime) (login_data : UserLogin.t) (db db' : Session)
         (user : Instance.t),
    authenticate_user utcnow db_now login_data db = (Some user, db') ->
    exists row,
      fst (get_user_by_username (UserLogin.username login_data) db) = Some row
      /\ In row (users db)
      /\ User.username row = UserLogin.username login_data
      /\ verify_password (UserLogin.password login_data) (User.hashed_password row) = true
      /\ User.is_active row = Some true
      /\ user = Instance.assign_last_login utcnow (Instance.of_row row)
      /\ Instance.last_login user = Some utcnow
      /\ Instance.updated_at user = ExpiredAttribute.
Proof.
  intros utcnow db_now login_data db db' user H.
  destruct (authenticate_user_return _ _ _ _ _ _ H)
    as (row & Hf & Hin & Hn & Hv & Ha & Hu & _).
  exists row. rewrite Hu. repeat split; assumption.
Qed.

(** X5. [get_current_user] returns only a row of the table, only an active
    one, and only the one whose id is the [user_id] of the verified token;
    it writes nothing. *)
Theorem get_current_user_sound :
  forall (now : datetime) (token_str : string) (db db' : Session) (user : User.t),
    get_current_user now token_str db = (Return user, db') ->
    In user (users db)
    /\ User.is_active user = Some true
    /\ (exists token_data,
           verify_token now token_str = Return token_data
           /\ TokenData.user_id token_data = Some (User.id user))
    /\ users db' = users db
    /\ id_seq db' = id_seq db.
Proof.
  intros now token_str db db' user H.
  destruct (get_current_user_return _ _ _ _ _ H) as (Hin & Ha & Ht & ->).
  repeat split; assumption.
Qed.

(** X6. Behind a role gate the handler only ever sees an active row of the
    table whose role is the required one or ADMIN, and the gate writes
    nothing. *)
Theorem role_gate_sound :
  forall (required_role : UserRole) (now : datetime) (token_str : string)
         (db db' : Session) (user : User.t),
    depends_role_checker (require_role required_role) now token_str db
    = (Return user, db') ->
    In user (users db)
    /\ User.is_active user = Some true
    /\ (User.role user = required_role \/ User.role user = ADMIN)
    /\ users db' = users db
    /\ id_seq db' = id_seq db.
Proof.
  intros required_role now token_str db db' user H.
  destruct (depends_role_checker_return _ _ _ _ _ _ H) as [Hg Hr].
  destruct (get_current_user_return _ _ _ _ _ Hg) as (Hin & Ha & _ & ->).
  repeat split; assumption.
Qed.

(** X7. [POST /register] creates nobody unless the token resolves to an
    active ADMIN: for any other request the response is one of the failures
    of the dependencies (401, 400 or 403) and the table is as before. *)
Theorem register_needs_admin :
  forall (now : datetime) (salt : string) (db_now : datetime) (token_str : string)
         (user_data : UserCreate.t) (db : Session),
    (forall admin, fst (get_current_user now token_str db) = Return admin ->
                   User.role admin <> ADMIN) ->
    let response := register now salt db_now token_str user_data db in
    users (snd response) = users db
    /\ id_seq (snd response) = id_seq db
    /\ (fst response = Error credentials_exception
        \/ fst response = Error inactive_user
        \/ fst response = Error not_enough_permissions).
Proof.
  intros now salt db_now token_str user_data db Hnot response. subst response.
  unfold register, require_admin, bind.
  pose proof (depends_role_checker_session ADMIN now token_str db) as Hs.
  pose proof (depends_role_checker_raise ADMIN now token_str db) as Hr.
  pose proof (depends_role_checker_return ADMIN now token_str db) as Hret.
  destruct (depends_role_checker (require_role ADMIN) now token_str db)
    as [[admin|e] db1]; simpl in Hs, Hr.
  - exfalso. destruct (Hret db1 admin eq_refl) as [Hg [Hrole|Hrole]];
      apply (Hnot admin); try exact Hrole; rewrite Hg; reflexivity.
  - destruct (Hr e eq_refl) as [-> | [-> | ->]]; simpl;
      (split; [destruct Hs; subst db1; reflexivity|]);
      (split; [destruct Hs; subst db1; reflexivity|]); auto.
Qed.

Lemma create_user_return
      (salt : string) (db_now : datetime) (user_data : UserCreate.t) (db db' : Session)
      (user : User.t) :
  create_user salt db_now user_data db = (Return user, db') ->
  find (fun u => (String.eqb (User.username u) (UserCreate.username user_data)
                  || String.eqb (User.email u) (UserCreate.email user_data))%bool)
       (users db) = None
  /\ users db' = (users db ++ [user])%list
  /\ User.id user = id_seq db + 1
  /\ User.username user = UserCreate.username user_data
  /\ User.email user = UserCreate.email user_data
  /\ User.hashed_password user = get_password_hash salt (UserCreate.password user_data)
  /\ User.is_active user = Some (UserCreate.is_active user_data).
Proof.
  rewrite create_user_unfold. unfold add_commit_refresh.
  destruct (find _ (users db)) as [u|] eqn:Hf; [discriminate|].
  destruct (fits_columns _); [|discriminate].
  intro H. injection H as <- <-. simpl. repeat split.
Qed.

Lemma find_username_none_of_taken (user_data : UserCreate.t) (rows : list User.t) :
  find (fun u => (String.eqb (User.username u) (UserCreate.username user_data)
                  || String.eqb (User.email u) (UserCreate.email user_data))%bool)
       rows = None ->
  find (fun u => String.eqb (User.username u) (UserCreate.username user_data)) rows = None.
Proof.
  induction rows as [|r rows IH]; simpl; [reflexivity|].
  destruct (String.eqb (User.username r) (UserCreate.username user_data)); simpl;
    [discriminate|].
  destruct (String.eqb (User.email r) (UserCreate.email user_data)); simpl;
    [discriminate|exact IH].
Qed.

(** X8. A user just created is found again: by its username, and, in a
    table that meets its constraints, by its id. *)
Theorem create_user_then_lookup :
  forall (salt : string) (db_now : datetime) (user_data : UserCreate.t)
         (db db' : Session) (user : User.t),
    table_constraints db ->
    create_user salt db_now user_data db = (Return user, db') ->
    fst (get_user_by_username (UserCreate.username user_data) db') = Some user
    /\ fst (get_user_by_id (Some (User.id user)) db') = Some user.
Proof.
  intros salt db_now user_data db db' user (_ & _ & _ & Hseq) Hc.
  destruct (create_user_return _ _ _ _ _ _ Hc) as (Hf & Hu & Hid & Hn & _).
  unfold get_user_by_username, get_user_by_id, select_first; cbn [fst].
  rewrite Hu. split.
  - rewrite find_app_none by (apply find_username_none_of_taken; exact Hf).
    simpl. rewrite Hn, String.eqb_refl. reflexivity.
  - rewrite find_app_none.
    + simpl. rewrite Z.eqb_refl. reflexivity.
    + destruct (find (fun u => User.id u =? User.id user) (users db))
        as [u|] eqn:Hfu; [|reflexivity].
      apply find_some in Hfu. destruct Hfu as [Hin Heq].
      apply Z.eqb_eq in Heq.
      rewrite Forall_forall in Hseq. specialize (Hseq u Hin). lia.
Qed.

(** X9. After a user is created, creating another with the same username
    or the same email is refused with 400 "Username or email already
    registered" and writes nothing. *)
Theorem create_user_twice_conflicts :
  forall (salt salt2 : string) (db_now db_now2 : datetime)
         (user_data user_data2 : UserCreate.t) (db db' : Session) (user : User.t),
    create_user salt db_now user_data db = (Return user, db') ->
    (UserCreate.username user_data2 = UserCreate.username user_data
     \/ UserCreate.email user_data2 = UserCreate.email user_data) ->
    create_user salt2 db_now2 user_data2 db' = (Raise already_registered, sent SELECT db').
Proof.
  intros salt salt2 db_now db_now2 user_data user_data2 db db' user Hc Hsame.
  destruct (create_user_return _ _ _ _ _ _ Hc) as (_ & Hu & _ & Hn & He & _).
  unfold create_user, select_first.
  destruct (find _ (users db')) as [u|] eqn:Hf; [reflexivity|].
  exfalso.
  assert (Hin : In user (users db')) by (rewrite Hu; apply in_or_app; right; left; reflexivity).
  apply (find_none _ _ Hf) in Hin.
  apply orb_false_elim in Hin. destruct Hin as [Hbn Hbe].
  apply String.eqb_neq in Hbn. apply String.eqb_neq in Hbe.
  destruct Hsame as [Hs | Hs]; congruence.
Qed.

(** X10. A user just created logs in with a password exactly when the
    password verifies against the hash made at its creation and the user was
    created active; the user returned is the instance of the created row with
    [last_login] the time of the login. *)
Theorem created_user_authenticates :
  forall (salt : string) (db_now utcnow db_now2 : datetime) (user_data : UserCreate.t)
         (db db' : Session) (user : User.t) (password : string),
    create_user salt db_now user_data db = (Return user, db') ->
    fst (authenticate_user utcnow db_now2
           {| UserLogin.username := UserCreate.username user_data;
              UserLogin.password := password |} db')
    = if (verify_password password
                          (get_password_hash salt (UserCreate.password user_data))
          && UserCreate.is_active user_data)%bool
      then Some (Instance.assign_last_login utcnow (Instance.of_row user))
      else None.
Proof.
  intros salt db_now utcnow db_now2 user_data db db' user password Hc.
  destruct (create_user_return _ _ _ _ _ _ Hc) as (Hf & Hu & _ & Hn & _ & Hh & Ha).
  rewrite authenticate_user_unfold.
  unfold get_user_by_username, select_first; cbn [fst UserLogin.username UserLogin.password].
  rewrite Hu, find_app_none by (apply find_username_none_of_taken; exact Hf).
  simpl. rewrite Hn, String.eqb_refl, Hh, Ha.
  destruct (verify_password _ _); simpl; [|reflexivity].
  destruct (UserCreate.is_active user_data); reflexivity.
Qed.

(** X11. A successful login does not stand in the way of the next one: the
    same login data authenticate again; the user returned is the same
    instance with [last_login] the time of the second login, and in the table
    its row carries that time and, as [updated_at], the database time of the
    second UPDATE. *)
Theorem authenticate_user_again :
  forall (utcnow db_now utcnow2 db_now2 : datetime) (login_data : UserLogin.t)
         (db db' : Session) (user : Instance.t),
    authenticate_user utcnow db_now login_data db = (Some user, db') ->
    fst (authenticate_user utcnow2 db_now2 login_data db')
    = Some (Instance.assign_last_login utcnow2 user)
    /\ In (Instance.to_row (Some db_now2) (Instance.assign_last_login utcnow2 user))
          (users (snd (authenticate_user utcnow2 db_now2 login_data db'))).
Proof.
  intros utcnow db_now utcnow2 db_now2 login_data db db' user H.
  destruct (authenticate_user_return _ _ _ _ _ _ H)
    as (row & Hf & Hin & _ & Hv & Ha & -> & ->).
  clear H.
  set (row' := User.touch_last_login utcnow db_now row).
  set (db' := commit_last_login (User.id row) utcnow db_now (sent SELECT db)).
  assert (Hin' : In row' (users db')).
  { unfold db', commit_last_login; cbn [users sent].
    apply in_map_iff. exists row. split; [|exact Hin].
    rewrite Z.eqb_refl. reflexivity. }
  assert (Hf' : fst (get_user_by_username (UserLogin.username login_data) db')
                = Some row').
  { unfold get_user_by_username, select_first in Hf |- *; cbn [fst] in Hf |- *.
    unfold db', commit_last_login; cbn [users sent].
    rewrite find_map_preserving
      by (intro u; destruct (User.id u =? User.id row); reflexivity).
    rewrite Hf. cbn [option_map]. rewrite Z.eqb_refl. reflexivity. }
  assert (Heq : authenticate_user utcnow2 db_now2 login_data db'
                = (Some (Instance.assign_last_login utcnow2 (Instance.of_row row')),
                   commit_last_login (User.id row') utcnow2 db_now2 (sent SELECT db'))).
  { rewrite authenticate_user_unfold, Hf'.
    replace (User.hashed_password row') with (User.hashed_password row) by reflexivity.
    replace (User.is_active row') with (User.is_active row) by reflexivity.
    rewrite Hv, Ha. reflexivity. }
  rewrite Heq. cbn [fst snd]. split; [reflexivity|].
  unfold commit_last_login at 1; cbn [users sent].
  apply in_map_iff. exists row'. split; [|exact Hin'].
  rewrite Z.eqb_refl. reflexivity.
Qed.

(** X12. The token of a login resolves to the user who logged in: in a
    table that meets its constraints, when the bearer string reads back as
    the token issued and the token is not yet expired, [get_current_user] on
    the access token returns the row of the authenticated user, with the
    times that the login left in it. *)
Theorem login_then_resolve :
  forall (utcnow db_now issued_at now : datetime) (login_data : UserLogin.t)
         (db db' : Session) (user : Instance.t),
    table_constraints db ->
    authenticate_user utcnow db_now login_data db = (Some user, db') ->
    let claims := {| Claims.sub := Instance.username user;
                     Claims.user_id := Instance.id user;
                     Claims.role := UserRole_value (Instance.role user) |} in
    let ttl := timedelta_minutes (Settings.ACCESS_TOKEN_EXPIRE_MINUTES settings) in
    parse_token (create_access_token issued_at claims ttl)
    = Some (issue issued_at claims ttl) ->
    now < issued_at + ttl ->
    exists token,
      login_user utcnow db_now issued_at login_data db = (Return token, db')
      /\ get_current_user now (Token.access_token token) db'
         = (Return (Instance.to_row (Some db_now) user), sent SELECT db').
Proof.
  intros utcnow db_now issued_at now login_data db db' user (Hid & _) Hauth
         claims ttl Hwire Hnow.
  eexists. split.
  - unfold login_user. rewrite Hauth. reflexivity.
  - cbn [Token.access_token]. fold claims. fold ttl.
    destruct (authenticate_user_return _ _ _ _ _ _ Hauth)
      as (row & _ & Hin & _ & _ & Ha & Hu & Hdb).
    rewrite get_current_user_unfold. unfold verify_token. rewrite Hwire.
    assert (Hd : decode now (issue issued_at claims ttl) = inr claims).
    { unfold decode, issue; simpl. rewrite String.eqb_refl.
      destruct (Z.leb_spec (issued_at + ttl) now); [lia|reflexivity]. }
    rewrite Hd. cbn [TokenData.user_id Claims.user_id claims].
    unfold get_user_by_id, select_first; cbn [fst].
    rewrite Hdb. unfold commit_last_login; cbn [users sent].
    rewrite find_map_preserving
      by (intro u; destruct (User.id u =? User.id row); reflexivity).
    assert (Hiu : Instance.id user = User.id row) by (rewrite Hu; reflexivity).
    rewrite Hiu, (find_by_unique_id _ _ Hid Hin).
    cbn [option_map]. rewrite Z.eqb_refl.
    assert (Hrow : User.touch_last_login utcnow db_now row
                   = Instance.to_row (Some db_now) user) by (rewrite Hu; reflexivity).
    rewrite Hrow.
    assert (Hau : User.is_active (Instance.to_row (Some db_now) user) = Some true)
      by (rewrite Hu; exact Ha).
    rewrite Hau. reflexivity.
Qed.

Lemma length_between_spec (lo hi : nat) (s : string) :
  length_between lo hi s = true <-> (lo <= String.length s <= hi)%nat.
Proof.
  unfold length_between. rewrite andb_true_iff, !Nat.leb_le. reflexivity.
Qed.

Lemma optional_max_length_spec (hi : nat) (s : option string) :
  optional_max_length hi s = true
  <-> match s with Some s => (String.length s <= hi)%nat | None => True end.
Proof.
  destruct s as [s|]; simpl; [apply Nat.leb_le|split; auto].
Qed.

Lemma UserCreate_init_some
      (username email password : string) (full_name : option string)
      (role : option UserRole) (is_active : option bool) (data : UserCreate.t) :
  UserCreate_init username email password full_name role is_active = Some data ->
  length_between 3 50 username = true
  /\ optional_max_length 100 full_name = true
  /\ length_between 8 100 password = true
  /\ validate_email email = Some (UserCreate.email data)
  /\ UserCreate.username data = username
  /\ UserCreate.full_name data = full_name
  /\ UserCreate.password data = password.
Proof.
  unfold UserCreate_init.
  destruct (length_between 3 50 username); [|discriminate].
  destruct (optional_max_length 100 full_name); [|discriminate].
  destruct (length_between 8 100 password); [|discriminate]. simpl.
  destruct (validate_email email) as [e|]; [|discriminate].
  intro H. injection H as <-. simpl. repeat split.
Qed.

(** X13. Registration data are accepted exactly when the username has 3
    to 50 characters, the full name, if any, at most 100, the password 8 to
    100, and the email address passes the validator; accepted data keep the
    username, full name and password as given and carry the address as the
    validator normalised it. *)
Theorem UserCreate_init_accepts_iff :
  forall (username email password : string) (full_name : option string)
         (role : option UserRole) (is_active : option bool),
    ((exists data,
         UserCreate_init username email password full_name role is_active = Some data)
     <-> ((3 <= String.length username <= 50)%nat
          /\ match full_name with
             | Some s => (String.length s <= 100)%nat
             | None => True
             end
          /\ (8 <= String.length password <= 100)%nat
          /\ validate_email email <> None))
    /\ (forall data,
           UserCreate_init username email password full_name role is_active = Some data ->
           UserCreate.username data = username
           /\ UserCreate.full_name data = full_name
           /\ UserCreate.password data = password
           /\ validate_email email = Some (UserCreate.email data)).
Proof.
  intros username email password full_name role is_active. split; [split|].
  - intros [data H].
    destruct (UserCreate_init_some _ _ _ _ _ _ _ H) as (Hu & Hf & Hp & He & _).
    apply length_between_spec in Hu. apply length_between_spec in Hp.
    apply optional_max_length_spec in Hf.
    split; [exact Hu|]. split; [exact Hf|]. split; [exact Hp|].
    rewrite He. discriminate.
  - intros (Hu & Hf & Hp & He).
    apply length_between_spec in Hu. apply length_between_spec in Hp.
    apply optional_max_length_spec in Hf.
    unfold UserCreate_init. rewrite Hu, Hf, Hp. simpl.
    destruct (validate_email email) as [e|]; [|contradiction].
    eexists. reflexivity.
  - intros data H.
    destruct (UserCreate_init_some _ _ _ _ _ _ _ H) as (_ & _ & _ & He & Hu & Hf & Hp).
    repeat split; assumption.
Qed.

(** X14. [POST /register] with accepted registration data never ends in a
    response validation error, provided the email validator accepts the
    addresses it has normalised; and a 201 response gives back the data as
    stored: username, address, full name, role and [is_active] of the
    request, the new id, [is_verified] false and no login yet. *)
Theorem register_response_is_valid :
  forall (username email password : string) (full_name : option string)
         (role : option UserRole) (is_active : option bool) (data : UserCreate.t)
         (now : datetime) (salt : string) (db_now : datetime) (token_str : string)
         (db : Session),
    UserCreate_init username email password full_name role is_active = Some data ->
    (forall e e', validate_email e = Some e' -> validate_email e' = Some e') ->
    let response := fst (register now salt db_now token_str data db) in
    response <> ResponseValidationError
    /\ (forall status view,
           response = Success status view ->
           status = HTTP_201_CREATED
           /\ UserResponse.username view = username
           /\ UserResponse.email view = UserCreate.email data
           /\ UserResponse.full_name view = full_name
           /\ UserResponse.role view = UserCreate.role data
           /\ UserResponse.is_active view = UserCreate.is_active data
           /\ UserResponse.id view = id_seq db + 1
           /\ UserResponse.is_verified view = false
           /\ UserResponse.created_at view = db_now
           /\ UserResponse.last_login view = None).
Proof.
  intros username email password full_name role is_active data
         now salt db_now token_str db Hinit Hidem response. subst response.
  destruct (UserCreate_init_some _ _ _ _ _ _ _ Hinit)
    as (Hu & Hf & _ & He & Hdu & Hdf & _).
  apply Hidem in He.
  unfold register, require_admin, bind.
  pose proof (depends_role_checker_session ADMIN now token_str db) as Hs.
  destruct (depends_role_checker (require_role ADMIN) now token_str db)
    as [[admin|e] db1]; simpl in Hs.
  - assert (Hseq : id_seq db1 = id_seq db) by (destruct Hs; subst db1; reflexivity).
    rewrite create_user_unfold.
    destruct (find _ (users db1)); simpl; [split; [discriminate|discriminate]|].
    unfold add_commit_refresh.
    destruct (fits_columns _); simpl; [|split; discriminate].
    unfold UserResponse_from_attributes; simpl.
    rewrite Hdu, Hdf, Hu, Hf, He. simpl.
    split; [discriminate|].
    intros status view H. injection H as <- <-. simpl.
    rewrite Hseq. repeat split.
  - destruct e; simpl; split; discriminate.
Qed.

Lemma create_admin_user_unfold (salt : string) (db_now : datetime) (db : Session) :
  create_admin_user salt db_now db =
  match find (fun u => String.eqb (User.username u) "admin") (users db) with
  | Some _ => (AlreadyExists, sent SELECT db)
  | None =>
      let admin_user :=
        {| User.kw_username := "admin";
           User.kw_email := "admin@re-platform.local";
           User.kw_hashed_password := get_password_hash salt "admin123!";
           User.kw_full_name := Some "System Administrator";
           User.kw_role := Some ADMIN;
           User.kw_is_active := Some true;
           User.kw_is_verified := Some true |} in
      if existsb (fun u => String.eqb (User.email u) "admin@re-platform.local") (users db)
      then (SeedFailed,
            {| users := users db;
               id_seq := id_seq db + 1;
               statements := (statements db ++ [SELECT]) ++ [INSERT] |})
      else
        let row :=
          {| User.id := id_seq db + 1;
             User.username := "admin";
             User.email := "admin@re-platform.local";
             User.hashed_password := get_password_hash salt "admin123!";
             User.full_name := Some "System Administrator";
             User.role := ADMIN;
             User.is_active := Some true;
             User.is_verified := Some true;
             User.created_at := Some db_now;
             User.updated_at := None;
             User.last_login := None |} in
        (CreatedAdmin row,
         {| users := users db ++ [row];
            id_seq := id_seq db + 1;
            statements := (statements db ++ [SELECT]) ++ [INSERT; SELECT] |})
  end.
Proof.
  unfold create_admin_user, select_first, add_commit_refresh_unique, add_commit_refresh.
  destruct (find _ (users db)) as [u|] eqn:Hf; [reflexivity|].
  cbn [users sent User.kw_username User.kw_email].
  assert (He : existsb (fun u => (String.eqb (User.username u) "admin"
                                  || String.eqb (User.email u) "admin@re-platform.local")%bool)
                       (users db)
               = existsb (fun u => String.eqb (User.email u) "admin@re-platform.local")
                         (users db)).
  { clear -Hf. induction (users db) as [|r rows IH]; [reflexivity|].
    simpl in Hf |- *.
    destruct (String.eqb (User.username r) "admin"); [discriminate|].
    simpl. rewrite (IH Hf). reflexivity. }
  rewrite He. clear He.
  destruct (existsb (fun u => String.eqb (User.email u) "admin@re-platform.local")
                    (users db)); reflexivity.
Qed.

(** X15. The seed script reports that the admin exists exactly when a row
    has the username "admin", and then writes nothing.  Otherwise it looks at
    nothing else before the INSERT: when the address "admin@re-platform.local"
    is free it appends the admin (role ADMIN, active, verified, the hash
    of "admin123!"), and when another user holds that address the INSERT fails
    on the unique index and the table is left as it was. *)
Theorem create_admin_user_outcomes :
  forall (salt : string) (db_now : datetime) (db : Session),
    let name_taken := exists u, In u (users db) /\ User.username u = "admin" in
    let email_taken :=
      exists u, In u (users db) /\ User.email u = "admin@re-platform.local" in
    match create_admin_user salt db_now db with
    | (AlreadyExists, db') =>
        name_taken /\ users db' = users db /\ id_seq db' = id_seq db
    | (CreatedAdmin admin_user, db') =>
        ~ name_taken /\ ~ email_taken
        /\ users db' = (users db ++ [admin_user])%list
        /\ User.username admin_user = "admin"
        /\ User.email admin_user = "admin@re-platform.local"
        /\ User.hashed_password admin_user = get_password_hash salt "admin123!"
        /\ User.role admin_user = ADMIN
        /\ User.is_active admin_user = Some true
        /\ User.is_verified admin_user = Some true
        /\ User.id admin_user = id_seq db + 1
    | (SeedFailed, db') =>
        ~ name_taken /\ email_taken /\ users db' = users db
    end.
Proof.
  intros salt db_now db name_taken email_taken.
  rewrite create_admin_user_unfold.
  destruct (find _ (users db)) as [u|] eqn:Hf.
  - apply find_some in Hf. destruct Hf as [Hin Hn]. apply String.eqb_eq in Hn.
    split; [exists u; split; assumption|split; reflexivity].
  - assert (Hname : ~ name_taken).
    { intros (u & Hin & Hn). apply (find_none _ _ Hf) in Hin.
      rewrite Hn in Hin. discriminate Hin. }
    cbv zeta.
    destruct (existsb _ (users db)) eqn:He.
    + apply existsb_exists in He. destruct He as (u & Hin & Hu).
      apply String.eqb_eq in Hu.
      split; [exact Hname|]. split; [exists u; split; assumption|reflexivity].
    + split; [exact Hname|]. split.
      * intros (u & Hin & Hu).
        assert (Ht : existsb (fun u => String.eqb (User.email u) "admin@re-platform.local")
                             (users db) = true).
        { apply existsb_exists. exists u. split; [exact Hin|].
          apply String.eqb_eq. exact Hu. }
        rewrite Ht in He. discriminate He.
      * simpl. repeat split.
Qed.

(** X16. Running the seed script again changes nothing: whatever the first
    run did, the second leaves the table as the first left it; after a run
    that found or created the admin it reports that the admin exists, and
    after a run that failed it fails again. *)
Theorem create_admin_user_idempotent :
  forall (salt salt2 : string) (db_now db_now2 : datetime) (db : Session),
    let first := create_admin_user salt db_now db in
    let second := create_admin_user salt2 db_now2 (snd first) in
    users (snd second) = users (snd first)
    /\ (fst first <> SeedFailed -> fst second = AlreadyExists)
    /\ (fst first = SeedFailed -> fst second = SeedFailed).
Proof.
  intros salt salt2 db_now db_now2 db first second. subst second first.
  rewrite (create_admin_user_unfold salt db_now db).
  destruct (find (fun u => String.eqb (User.username u) "admin") (users db))
    as [u|] eqn:Hf.
  - cbn [fst snd]. rewrite create_admin_user_unfold. cbn [users sent]. rewrite Hf.
    split; [reflexivity|]. split; [reflexivity|discriminate].
  - cbv zeta.
    destruct (existsb (fun u => String.eqb (User.email u) "admin@re-platform.local")
                      (users db)) eqn:He.
    + cbn [fst snd]. rewrite create_admin_user_unfold. cbn [users]. rewrite Hf, He.
      split; [reflexivity|]. split; [intro H; contradiction|reflexivity].
    + cbn [fst snd]. rewrite create_admin_user_unfold.
      unfold add_commit_refresh. cbn [users sent snd fst].
      rewrite !(find_app_none _ _ _ Hf). simpl.
      split; [reflexivity|]. split; [reflexivity|discriminate].
Qed.

(** X17. The seed script keeps the constraints of the table, whatever its
    outcome. *)
Theorem create_admin_user_keeps_table_constraints :
  forall (salt : string) (db_now : datetime) (db : Session),
    table_constraints db ->
    table_constraints (snd (create_admin_user salt db_now db)).
Proof.
  intros salt db_now db (Hid & Hname & Hemail & Hseq).
  rewrite create_admin_user_unfold.
  destruct (find (fun u => String.eqb (User.username u) "admin") (users db))
    as [u|] eqn:Hf; [repeat split; assumption|].
  cbv zeta.
  destruct (existsb (fun u => String.eqb (User.email u) "admin@re-platform.local")
                    (users db)) eqn:He.
  - split; [exact Hid|]. split; [exact Hname|]. split; [exact Hemail|].
    cbn [snd users id_seq]. eapply Forall_impl; [|exact Hseq].
    intros r Hr. simpl in Hr |- *. lia.
  - cbn [snd]. unfold add_commit_refresh, table_constraints. cbn [snd users id_seq sent].
    split; [|split; [|split]].
    + apply NoDup_map_snoc; [exact Hid|]. simpl.
      intro Hin. apply in_map_iff in Hin. destruct Hin as (r & Hr & Hin).
      rewrite Forall_forall in Hseq. specialize (Hseq r Hin). lia.
    + apply NoDup_map_snoc; [exact Hname|]. simpl.
      intro Hin. apply in_map_iff in Hin. destruct Hin as (r & Hr & Hin).
      apply (find_none _ _ Hf) in Hin. rewrite Hr in Hin. discriminate Hin.
    + apply NoDup_map_snoc; [exact Hemail|]. simpl.
      intro Hin. apply in_map_iff in Hin. destruct Hin as (r & Hr & Hin).
      assert (Ht : existsb (fun u => String.eqb (User.email u) "admin@re-platform.local")
                           (users db) = true).
      { apply existsb_exists. exists r. split; [exact Hin|].
        apply String.eqb_eq. exact Hr. }
      rewrite Ht in He. discriminate He.
    + apply Forall_app. split.
      * eapply Forall_impl; [|exact Hseq]. simpl. intros r Hr. lia.
      * constructor; [simpl; lia|constructor].
Qed.

(** X18. The admin made by the seed script logs in as "admin" with a
    password exactly when the password verifies against the hash
    of "admin123!", and the row of that user passes the admin gate. *)
Theorem seeded_admin_authenticates :
  forall (salt : string) (db_now utcnow db_now2 : datetime) (db db' : Session)
         (admin_user : User.t) (password : string),
    create_admin_user salt db_now db = (CreatedAdmin admin_user, db') ->
    fst (authenticate_user utcnow db_now2
           {| UserLogin.username := "admin"; UserLogin.password := password |} db')
    = (if verify_password password (get_password_hash salt "admin123!")
       then Some (Instance.assign_last_login utcnow (Instance.of_row admin_user))
       else None)
    /\ require_admin (User.touch_last_login utcnow db_now2 admin_user)
       = Return (User.touch_last_login utcnow db_now2 admin_user).
Proof.
  intros salt db_now utcnow db_now2 db db' admin_user password.
  rewrite create_admin_user_unfold.
  destruct (find (fun u => String.eqb (User.username u) "admin") (users db))
    as [u|] eqn:Hf; [discriminate|].
  cbv zeta.
  destruct (existsb (fun u => String.eqb (User.email u) "admin@re-platform.local")
                    (users db)); [discriminate|].
  intro H. injection H as <- <-. split; [|reflexivity].
  rewrite authenticate_user_unfold.
  unfold get_user_by_username, select_first.
  cbn [fst snd users sent UserLogin.username UserLogin.password].
  rewrite (find_app_none _ _ _ Hf). simpl.
  destruct (verify_password _ _); reflexivity.
Qed.

(** X19. A 200 response of [GET /me] shows a row of the table: its id,
    username, full name and role, its timestamps, and [is_active] true; the
    request writes nothing. *)
Theorem get_current_user_info_sound :
  forall (now : datetime) (token_str : string) (db : Session)
         (status : Z) (view : UserResponse.t),
    fst (get_current_user_info now token_str db) = Success status view ->
    status = HTTP_200_OK
    /\ UserResponse.is_active view = true
    /\ users (snd (get_current_user_info now token_str db)) = users db
    /\ exists row,
         In row (users db)
         /\ fst (get_current_user now token_str db) = Return row
         /\ UserResponse.id view = User.id row
         /\ UserResponse.username view = User.username row
         /\ UserResponse.full_name view = User.full_name row
         /\ UserResponse.role view = User.role row
         /\ User.is_verified row = Some (UserResponse.is_verified view)
         /\ User.created_at row = Some (UserResponse.created_at view)
         /\ UserResponse.updated_at view = User.updated_at row
         /\ UserResponse.last_login view = User.last_login row.
Proof.
  intros now token_str db status view.
  unfold get_current_user_info. rewrite depends_current_active_user_eq.
  pose proof (get_current_user_return now token_str db) as Hret.
  destruct (get_current_user now token_str db) as [[row|e] db1];
    [|destruct e; discriminate].
  destruct (Hret db1 row eq_refl) as (Hin & Ha & _ & ->).
  unfold respond_user, UserResponse_from_attributes.
  destruct (_ && _)%bool; [|discriminate].
  destruct (validate_email (User.email row)) as [email|]; [|discriminate].
  rewrite Ha.
  destruct (User.is_verified row) as [v|] eqn:Hv; [|discriminate].
  destruct (User.created_at row) as [c|] eqn:Hc; [|discriminate].
  cbn [fst snd]. intro H. injection H as <- <-. cbn.
  split; [reflexivity|]. split; [reflexivity|]. split; [reflexivity|].
  exists row. repeat split; solve [reflexivity | assumption].
Qed.

Lemma find_by_unique_username (rows : list User.t) (row : User.t) :
  NoDup (map User.username rows) -> In row rows ->
  find (fun u => String.eqb (User.username u) (User.username row)) rows = Some row.
Proof.
  induction rows as [|r rows IH]; simpl; intros Hnd Hin; [contradiction|].
  inversion Hnd as [|n names Hnotin Hnd']; subst.
  destruct Hin as [-> | Hin].
  - rewrite String.eqb_refl. reflexivity.
  - destruct (String.eqb_spec (User.username r) (User.username row)) as [Heq|Hneq].
    + exfalso. apply Hnotin. rewrite Heq. apply in_map. exact Hin.
    + apply IH; assumption.
Qed.

(** X20. In a table that meets its constraints the two lookups of the
    service find every row: by its username and by its id they return that
    row and no other. *)
Theorem lookups_find_every_row :
  forall (db : Session) (row : User.t),
    table_constraints db ->
    In row (users db) ->
    fst (get_user_by_username (User.username row) db) = Some row
    /\ fst (get_user_by_id (Some (User.id row)) db) = Some row.
Proof.
  intros db row (Hid & Hname & _) Hin.
  unfold get_user_by_username, get_user_by_id, select_first; cbn [fst]. split.
  - apply find_by_unique_username; assumption.
  - apply find_by_unique_id; assumption.
Qed.

(** X21. [get_current_user] takes nothing from a verified token but its
    [user_id]: two tokens that verify with the same [user_id] resolve alike,
    whatever username and role they claim; the role that the gates check is
    the one stored in the table. *)
Theorem get_current_user_reads_only_user_id :
  forall (now : datetime) (token_str1 token_str2 : string) (db : Session)
         (token_data1 token_data2 : TokenData.t),
    verify_token now token_str1 = Return token_data1 ->
    verify_token now token_str2 = Return token_data2 ->
    TokenData.user_id token_data1 = TokenData.user_id token_data2 ->
    get_current_user now token_str1 db = get_current_user now token_str2 db.
Proof.
  intros now token_str1 token_str2 db token_data1 token_data2 H1 H2 Hid.
  rewrite !get_current_user_unfold, H1, H2, Hid. reflexivity.
Qed.

(** *** The failures as the routes answer them *)

Lemma answer_exception_error {A : Type} (e' : Exception) (e : HTTPException) :
  @answer_exception A e' = Error e <-> e' = HTTP e.
Proof.
  destruct e' as [h|]; simpl; split; intro H; try discriminate H.
  - injection H as ->. reflexivity.
  - injection H as ->. reflexivity.
Qed.

Lemma security_raise (authorization : option string) (e : Exception) :
  security authorization = Raise e ->
  e = not_authenticated \/ e = invalid_authentication_credentials.
Proof.
  unfold security. destruct authorization as [header|].
  - destruct (partition_space header) as [scheme credentials].
    destruct (_ || _)%bool.
    + intro H. injection H as <-. left; reflexivity.
    + destruct (negb _); intro H; [|discriminate H].
      injection H as <-. right; reflexivity.
  - intro H. injection H as <-. left; reflexivity.
Qed.

Lemma register_unfold (now : datetime) (salt : string) (db_now : datetime)
      (token_str : string) (user_data : UserCreate.t) (db : Session) :
  register now salt db_now token_str user_data db =
  match get_current_user now token_str db with
  | (Return current_user, db1) =>
      if UserRole_eqb (User.role current_user) ADMIN
      then respond_user HTTP_201_CREATED (create_user salt db_now user_data db1)
      else (Error not_enough_permissions, db1)
  | (Raise e, db1) => (answer_exception e, db1)
  end.
Proof.
  unfold register, depends_role_checker, bind, lift.
  rewrite depends_current_active_user_eq.
  destruct (get_current_user now token_str db) as [[current_user|e] db1];
    [|reflexivity].
  unfold require_admin, require_role.
  destruct (UserRole_eqb (User.role current_user) ADMIN); reflexivity.
Qed.

Lemma login_error_iff (utcnow db_now issued_at : datetime) (login_data : UserLogin.t)
      (db : Session) (e : HTTPException) :
  fst (login utcnow db_now issued_at login_data db) = Error e
  <-> (e = incorrect_username_or_password
       /\ fst (authenticate_user utcnow db_now login_data db) = None).
Proof.
  unfold login, login_user.
  destruct (authenticate_user utcnow db_now login_data db) as [[user|] db1]; simpl.
  - split; [intro H; discriminate H|intros [_ H]; discriminate H].
  - split.
    + intro H. injection H as <-. split; reflexivity.
    + intros [-> _]. reflexivity.
Qed.

Lemma get_current_user_info_error_iff (now : datetime) (token_str : string)
      (db : Session) (e : HTTPException) :
  fst (get_current_user_info now token_str db) = Error e
  <-> fst (get_current_user now token_str db) = Raise e.
Proof.
  unfold get_current_user_info. rewrite depends_current_active_user_eq.
  destruct (get_current_user now token_str db) as [[user|e'] db1]; simpl.
  - destruct (UserResponse_from_attributes user);
      split; intro H; discriminate H.
  - rewrite answer_exception_error. split; intro H; congruence.
Qed.

Lemma register_error_iff (now : datetime) (salt : string) (db_now : datetime)
      (token_str : string) (user_data : UserCreate.t) (db : Session)
      (e : HTTPException) :
  fst (register now salt db_now token_str user_data db) = Error e
  <-> (fst (get_current_user now token_str db) = Raise e
       \/ exists current_user,
            fst (get_current_user now token_str db) = Return current_user
            /\ ((User.role current_user <> ADMIN /\ e = not_enough_permissions)
                \/ (User.role current_user = ADMIN
                    /\ username_or_email_taken user_data db
                    /\ e = already_registered))).
Proof.
  rewrite register_unfold.
  pose proof (get_current_user_return now token_str db) as Hret.
  destruct (get_current_user now token_str db) as [[current_user|e'] db1]; simpl.
  - destruct (Hret db1 current_user eq_refl) as (_ & _ & _ & ->). clear Hret.
    destruct (UserRole_eqb (User.role current_user) ADMIN) eqn:Hr.
    + apply UserRole_eqb_eq in Hr.
      pose proof (taken_iff_found user_data db) as Htaken.
      rewrite create_user_unfold. cbn [users sent].
      destruct (find _ (users db)) as [u|] eqn:Hf.
      * simpl. split.
        -- intro H. injection H as <-. right. exists current_user.
           split; [reflexivity|]. right.
           split; [exact Hr|]. split; [apply Htaken; discriminate|reflexivity].
        -- intros [H | (u' & H & [[Hn _] | (_ & _ & ->)])].
           ++ discriminate H.
           ++ injection H as <-. contradiction.
           ++ reflexivity.
      * assert (Hfree : ~ username_or_email_taken user_data db).
        { intro H. apply Htaken in H. apply H. reflexivity. }
        split.
        -- intro H. exfalso. revert H.
           destruct (add_commit_refresh _ _ _) as [[db_user|] db2]; simpl.
           ++ destruct (UserResponse_from_attributes db_user); discriminate.
           ++ discriminate.
        -- intros [H | (u' & H & [[Hn _] | (_ & Ht & _)])].
           ++ discriminate H.
           ++ injection H as <-. contradiction.
           ++ contradiction.
    + apply UserRole_eqb_neq in Hr. simpl. split.
      * intro H. injection H as <-. right. exists current_user.
        split; [reflexivity|]. left. split; [exact Hr|reflexivity].
      * intros [H | (u' & H & [[_ ->] | (Ha & _)])].
        -- discriminate H.
        -- reflexivity.
        -- injection H as <-. contradiction.
  - rewrite answer_exception_error. split.
    + intros ->. left; reflexivity.
    + intros [H | (u' & H & _)]; [congruence|discriminate H].
Qed.

Lemma login_error_lookups (utcnow db_now issued_at : datetime) (login_data : UserLogin.t)
      (db : Session) (e : HTTPException) :
  fst (login utcnow db_now issued_at login_data db) = Error e ->
  In e failure_kinds
  /\ only_lookups db (snd (login utcnow db_now issued_at login_data db)).
Proof.
  unfold login.
  pose proof (login_user_raise utcnow db_now issued_at login_data db) as Hl.
  destruct (login_user utcnow db_now issued_at login_data db) as [[token|e'] db1];
    simpl in Hl |- *; intro H; [discriminate H|].
  destruct (Hl e' eq_refl) as [-> ->]. simpl in H. injection H as <-.
  split; [simpl; auto|].
  apply (only_lookups_sent db (sent SELECT db)). right; reflexivity.
Qed.

Lemma get_current_user_info_error_lookups (now : datetime) (token_str : string)
      (db : Session) (e : HTTPException) :
  fst (get_current_user_info now token_str db) = Error e ->
  In e failure_kinds
  /\ only_lookups db (snd (get_current_user_info now token_str db)).
Proof.
  unfold get_current_user_info.
  pose proof (depends_current_active_user_session now token_str db) as Hs.
  pose proof (depends_current_active_user_raise now token_str db) as Hr.
  destruct (depends_current_active_user now token_str db) as [[user|e'] db1];
    simpl in Hs, Hr |- *.
  - destruct (UserResponse_from_attributes user); intro H; discriminate H.
  - intro H. split; [|exact (proj1 (only_lookups_sent db db1 Hs))].
    destruct (Hr e' eq_refl) as [-> | ->]; simpl in H; injection H as <-;
      simpl; auto 10.
Qed.

Lemma register_error_lookups (now : datetime) (salt : string) (db_now : datetime)
      (token_str : string) (user_data : UserCreate.t) (db : Session)
      (e : HTTPException) :
  fst (register now salt db_now token_str user_data db) = Error e ->
  In e failure_kinds
  /\ only_lookups db (snd (register now salt db_now token_str user_data db)).
Proof.
  unfold register, require_admin, bind.
  pose proof (depends_role_checker_session ADMIN now token_str db) as Hs.
  pose proof (depends_role_checker_raise ADMIN now token_str db) as Hr.
  destruct (depends_role_checker (require_role ADMIN) now token_str db)
    as [[admin|e'] db1]; simpl in Hs, Hr.
  - pose proof (create_user_raise salt db_now user_data db1) as Hc.
    destruct (create_user salt db_now user_data db1) as [[user|e''] db2];
      simpl in Hc |- *.
    + destruct (UserResponse_from_attributes user); intro H; discriminate H.
    + intro H.
      destruct (Hc e'' eq_refl) as [(-> & _ & ->) | (-> & _)];
        simpl in H; [|discriminate H].
      injection H as <-.
      split; [simpl; auto|]. exact (proj2 (only_lookups_sent db db1 Hs)).
  - simpl. intro H.
    split; [|exact (proj1 (only_lookups_sent db db1 Hs))].
    destruct (Hr e' eq_refl) as [-> | [-> | ->]]; simpl in H; injection H as <-;
      simpl; auto 10.
Qed.

Lemma with_bearer_error_iff {A : Type} (authorization : option string)
      (route : string -> Session -> Response A * Session) (db : Session)
      (e : HTTPException) :
  fst (with_bearer authorization route db) = Error e
  <-> (security authorization = Raise e
       \/ exists credentials,
            security authorization = Return credentials
            /\ fst (route credentials db) = Error e).
Proof.
  unfold with_bearer.
  destruct (security authorization) as [credentials|e']; simpl.
  - split.
    + intro H. right. exists credentials. split; [reflexivity|exact H].
    + intros [H | (c & H & He)]; [discriminate H|].
      injection H as <-. exact He.
  - rewrite answer_exception_error. split.
    + intros ->. left; reflexivity.
    + intros [H | (c & H & _)]; [congruence|discriminate H].
Qed.

Lemma with_bearer_error_lookups {A : Type} (authorization : option string)
      (route : string -> Session -> Response A * Session) (db : Session)
      (e : HTTPException) :
  (forall credentials,
      fst (route credentials db) = Error e ->
      In e failure_kinds /\ only_lookups db (snd (route credentials db))) ->
  fst (with_bearer authorization route db) = Error e ->
  In e route_failures /\ only_lookups db (snd (with_bearer authorization route db)).
Proof.
  intro Hroute. unfold with_bearer.
  pose proof (security_raise authorization) as Hs.
  destruct (security authorization) as [credentials|e']; cbn [fst snd].
  - intro H. destruct (Hroute credentials H) as [Hin Hl].
    split; [|exact Hl]. apply (in_or_app failure_kinds). left. exact Hin.
  - intro H. split; [|apply only_lookups_same].
    apply (in_or_app failure_kinds). right.
    destruct (Hs e' eq_refl) as [-> | ->]; simpl in H; injection H as <-;
      simpl; auto.
Qed.

(** C9. The five failures (duplicate registration, failed login,
    unresolved token, inactive user, insufficient role) and the two of the
    bearer scheme are seven different exceptions, each with a status between
    400 and 499.  Each reaches the response of the route as it was raised:
    [POST /login] answers 401 "Incorrect username or password" exactly when
    [authenticate_user] gives no user; [GET /me] answers an error exactly
    when the bearer scheme raises it or [get_current_user] raises it on the
    credentials; [POST /register] answers an error exactly when the bearer
    scheme or [get_current_user] raises it, or the current user is not an
    admin (403 "Not enough permissions"), or is one and the username or
    email is taken (400 "Username or email already registered").  The bearer
    scheme and [get_current_user] raise no other exceptions than theirs, a
    route answers no other error than the seven, and a request answered by
    an error has written nothing and has sent each of its lookups once (at
    most two in all): nothing is tried again. *)
Theorem failure_kinds_surfaced :
  NoDup route_failures
  /\ Forall is_4xx route_failures
  /\ (forall utcnow db_now issued_at login_data db (e : HTTPException),
         fst (login utcnow db_now issued_at login_data db) = Error e
         <-> (e = incorrect_username_or_password
              /\ fst (authenticate_user utcnow db_now login_data db) = None))
  /\ (forall now authorization db (e : HTTPException),
         fst (route_me now authorization db) = Error e
         <-> (security authorization = Raise e
              \/ exists credentials,
                   security authorization = Return credentials
                   /\ fst (get_current_user now credentials db) = Raise e))
  /\ (forall now salt db_now authorization user_data db (e : HTTPException),
         fst (route_register now salt db_now authorization user_data db) = Error e
         <-> (security authorization = Raise e
              \/ exists credentials,
                   security authorization = Return credentials
                   /\ (fst (get_current_user now credentials db) = Raise e
                       \/ exists current_user,
                            fst (get_current_user now credentials db)
                            = Return current_user
                            /\ ((User.role current_user <> ADMIN
                                 /\ e = not_enough_permissions)
                                \/ (User.role current_user = ADMIN
                                    /\ username_or_email_taken user_data db
                                    /\ e = already_registered)))))
  /\ (forall authorization (e : Exception),
         security authorization = Raise e ->
         e = not_authenticated \/ e = invalid_authentication_credentials)
  /\ (forall now credentials db (e : Exception),
         fst (get_current_user now credentials db) = Raise e ->
         e = credentials_exception \/ e = inactive_user)
  /\ (forall utcnow db_now issued_at login_data db (e : HTTPException),
         fst (login utcnow db_now issued_at login_data db) = Error e ->
         In e route_failures
         /\ only_lookups db (snd (login utcnow db_now issued_at login_data db)))
  /\ (forall now authorization db (e : HTTPException),
         fst (route_me now authorization db) = Error e ->
         In e route_failures
         /\ only_lookups db (snd (route_me now authorization db)))
  /\ (forall now salt db_now authorization user_data db (e : HTTPException),
         fst (route_register now salt db_now authorization user_data db) = Error e ->
         In e route_failures
         /\ only_lookups db
              (snd (route_register now salt db_now authorization user_data db))).
Proof.
  split.
  { unfold route_failures, failure_kinds.
    repeat (constructor; [simpl; intuition discriminate|]). constructor. }
  split.
  { unfold route_failures, failure_kinds, is_4xx.
    repeat (constructor; [cbv; split; intro Hc; discriminate Hc|]). constructor. }
  split; [exact login_error_iff|].
  split.
  { intros now authorization db e. unfold route_me.
    rewrite with_bearer_error_iff.
    split; (intros [H | (credentials & Hs & H)];
            [left; exact H|right; exists credentials; split; [exact Hs|]]).
    - exact (proj1 (get_current_user_info_error_iff _ _ _ _) H).
    - exact (proj2 (get_current_user_info_error_iff _ _ _ _) H). }
  split.
  { intros now salt db_now authorization user_data db e. unfold route_register.
    rewrite with_bearer_error_iff.
    split; (intros [H | (credentials & Hs & H)];
            [left; exact H|right; exists credentials; split; [exact Hs|]]).
    - exact (proj1 (register_error_iff _ _ _ _ _ _ _) H).
    - exact (proj2 (register_error_iff _ _ _ _ _ _ _) H). }
  split; [exact security_raise|].
  split; [exact get_current_user_raise|].
  split.
  { intros utcnow db_now issued_at login_data db e H.
    destruct (login_error_lookups _ _ _ _ _ _ H) as [Hin Hl].
    split; [|exact Hl]. apply (in_or_app failure_kinds). left. exact Hin. }
  split.
  { intros now authorization db e. unfold route_me.
    apply with_bearer_error_lookups.
    intros credentials. apply get_current_user_info_error_lookups. }
  { intros now salt db_now authorization user_data db e. unfold route_register.
    apply (with_bearer_error_lookups authorization
             (fun token_str => register now salt db_now token_str user_data)).
    intros credentials. apply register_error_lookups. }
Qed.

End Backend.

(** ** Responses and passwords *)

Lemma create_user_same
      (get_password_hash1 get_password_hash2 : string -> string -> string)
      (salt1 salt2 : string) (db_now : datetime) (user_data : UserCreate.t)
      (password2 : string) (db1 db2 : Session) :
  same_but_hashes db1 db2 ->
  same_outcome_but_hash
    (fst (create_user get_password_hash1 salt1 db_now user_data db1))
    (fst (create_user get_password_hash2 salt2 db_now
                      (UserCreate.with_password password2 user_data) db2)).
Proof.
  intros [Hrows Hseq]. unfold create_user, select_first.
  pose proof (find_without_hash
                (fun u => (String.eqb (User.username u) (UserCreate.username user_data)
                           || String.eqb (User.email u) (UserCreate.email user_data))%bool)
                (users db1) (users db2) (fun u => eq_refl) Hrows) as Hf.
  cbn [UserCreate.with_password UserCreate.username UserCreate.email].
  destruct (find _ (users db1)) as [u1|], (find _ (users db2)) as [u2|];
    cbn [option_map] in Hf; try discriminate Hf.
  - reflexivity.
  - unfold add_commit_refresh, fits_columns.
    cbn [User.kw_username User.kw_email User.kw_full_name users id_seq sent].
    destruct (_ && _)%bool; [|reflexivity].
    simpl. unfold User.without_hash; simpl. rewrite Hseq. reflexivity.
Qed.

(** C8. The view sent back by [register] and by [GET /me] carries neither
    the password hash nor the password: the response model reads no such
    attribute, so that the response is the same whatever the hashes stored in
    the table, whatever the password in the registration data, and whatever
    the hasher and its salt. *)
Theorem responses_hide_passwords :
  forall (settings : Settings.t)
         (sign : string -> Claims.t -> datetime -> string)
         (parse_token : string -> option SignedToken.t)
         (validate_email : string -> option string)
         (get_password_hash1 get_password_hash2 : string -> string -> string)
         (now : datetime) (salt1 salt2 : string) (db_now : datetime)
         (token_str : string) (user_data : UserCreate.t) (password2 : string)
         (db1 db2 : Session),
    same_but_hashes db1 db2 ->
    fst (register settings get_password_hash1 sign parse_token validate_email
                  now salt1 db_now token_str user_data db1)
    = fst (register settings get_password_hash2 sign parse_token validate_email
                    now salt2 db_now token_str
                    (UserCreate.with_password password2 user_data) db2)
    /\ fst (get_current_user_info settings sign parse_token validate_email
                                  now token_str db1)
       = fst (get_current_user_info settings sign parse_token validate_email
                                    now token_str db2)
    /\ (forall u : User.t,
           UserResponse_from_attributes validate_email (User.without_hash u)
           = UserResponse_from_attributes validate_email u).
Proof.
  intros settings sign parse_token validate_email get_password_hash1 get_password_hash2
         now salt1 salt2 db_now token_str user_data password2 db1 db2 H.
  split; [|split].
  - unfold register, require_admin. apply respond_user_same. unfold bind.
    destruct (depends_role_checker_same settings sign parse_token ADMIN
                now token_str db1 db2 H) as [Ho Hs].
    destruct (depends_role_checker settings sign parse_token (require_role ADMIN)
                                   now token_str db1) as [[a1|e1] s1],
             (depends_role_checker settings sign parse_token (require_role ADMIN)
                                   now token_str db2) as [[a2|e2] s2];
      simpl in Ho, Hs; try contradiction.
    + apply create_user_same. exact Hs.
    + exact Ho.
  - unfold get_current_user_info. apply respond_user_same.
    apply depends_current_active_user_same. exact H.
  - intro u. reflexivity.
Qed.

(** ** The properties on the test data *)

Lemma authenticate_user_failures_indistinguishable_on_examples :
  authenticate_user example_verify_password 1000 1001
    {| UserLogin.username := "nonexistent"; UserLogin.password := "anypass" |}
    example_db = (None, sent SELECT example_db)
  /\ authenticate_user example_verify_password 1000 1001
       {| UserLogin.username := "authtest"; UserLogin.password := "wrongpass" |}
       example_db = (None, sent SELECT example_db)
  /\ authenticate_user example_verify_password 1000 1001
       {| UserLogin.username := "dormant"; UserLogin.password := "sleeping99" |}
       example_db = (None, sent SELECT example_db).
Proof.
  split; [|split];
    apply (authenticate_user_failures_indistinguishable example_verify_password).
  - left. reflexivity.
  - right; left. exists authtest_row. split; reflexivity.
  - right; right. exists dormant_row. split; [reflexivity|].
    split; [reflexivity|]. simpl. discriminate.
Defined.

Lemma require_role_on_examples :
  require_role ADMIN admin_row = Return admin_row
  /\ require_role ADMIN authtest_row = Raise not_enough_permissions
  /\ require_role VIEWER dormant_row = Raise not_enough_permissions
  /\ require_role ANALYST authtest_row = Raise not_enough_permissions.
Proof.
  split; [|split; [|split]].
  - apply (proj1 (require_role_permits_iff ADMIN admin_row)). left. reflexivity.
  - apply (proj1 (proj2 (require_role_permits_iff ADMIN authtest_row))).
    simpl. intros [H | H]; discriminate H.
  - apply (proj1 (proj2 (proj2 (require_role_permits_iff VIEWER dormant_row)))).
    reflexivity.
  - apply (proj2 (proj2 (proj2 (require_role_permits_iff ANALYST authtest_row)))).
    reflexivity.
Defined.

Lemma get_current_user_on_examples :
  let resolve := get_current_user Settings.defaults example_sign example_parse_token in
  resolve 1500 "garbage" example_db = (Raise credentials_exception, example_db)
  /\ resolve 1500 "forged.token" example_db = (Raise credentials_exception, example_db)
  /\ resolve 2800 "admin.token" example_db = (Raise credentials_exception, example_db)
  /\ resolve 1500 "vanished.token" example_db
     = (Raise credentials_exception, sent SELECT example_db)
  /\ resolve 1500 "dormant.token" example_db
     = (Raise inactive_user, sent SELECT example_db)
  /\ resolve 1500 "admin.token" example_db = (Return admin_row, sent SELECT example_db).
Proof.
  intro resolve. subst resolve.
  pose proof (get_current_user_outcomes Settings.defaults example_sign example_parse_token)
    as H.
  split; [|split; [|split; [|split; [|split]]]].
  - apply (proj1 (H 1500 "garbage" example_db)). left. reflexivity.
  - apply (proj1 (H 1500 "forged.token" example_db)). right.
    exists forged_token, InvalidSignature. split; reflexivity.
  - apply (proj1 (H 2800 "admin.token" example_db)). right.
    exists (example_token admin_row 2800), Expired. split; reflexivity.
  - apply (proj1 (proj2 (H 1500 "vanished.token" example_db)
                        vanished_token (SignedToken.claims vanished_token)
                        eq_refl eq_refl)).
    reflexivity.
  - apply (proj1 (proj2 (proj2 (H 1500 "dormant.token" example_db)
                               (example_token dormant_row 2800)
                               (example_claims dormant_row) eq_refl eq_refl))
                 dormant_row).
    + reflexivity.
    + simpl. discriminate.
  - apply (proj2 (proj2 (proj2 (H 1500 "admin.token" example_db)
                               (example_token admin_row 2800)
                               (example_claims admin_row) eq_refl eq_refl))
                 admin_row); reflexivity.
Defined.

Lemma example_user_data_not_taken :
  ~ username_or_email_taken example_user_data example_db.
Proof.
  intros (u & Hin & Hu). simpl in Hin.
  destruct Hin as [<- | [<- | [<- | []]]]; destruct Hu as [Hu | Hu]; discriminate Hu.
Defined.

Lemma overlong_user_data_not_taken :
  ~ username_or_email_taken overlong_user_data example_db.
Proof.
  intros (u & Hin & Hu). simpl in Hin.
  destruct Hin as [<- | [<- | [<- | []]]]; destruct Hu as [Hu | Hu];
    vm_compute in Hu; discriminate Hu.
Defined.

Lemma overlong_user_data_does_not_fit : ~ fits_table overlong_user_data.
Proof.
  intros (_ & He & _). vm_compute in He.
  repeat (apply le_S_n in He). inversion He.
Defined.

Lemma create_user_on_examples :
  UserCreate_init example_validate_email "testuser" "test@example.com" "testpass123"
                  None None None
  = Some {| UserCreate.username := "testuser";
            UserCreate.email := "test@example.com";
            UserCreate.full_name := None;
            UserCreate.role := VIEWER;
            UserCreate.is_active := true;
            UserCreate.password := "testpass123" |}
  /\ (exists user,
         fst (create_user example_get_password_hash "s4" 1501 example_user_data example_db)
         = Return user
         /\ User.hashed_password user = "s4$testpass123"
         /\ User.role user = ANALYST
         /\ User.is_active user = Some true)
  /\ fst (create_user example_get_password_hash "s5" 1502
             {| UserCreate.username := "admin";
                UserCreate.email := "other@example.com";
                UserCreate.full_name := None;
                UserCreate.role := VIEWER;
                UserCreate.is_active := true;
                UserCreate.password := "whatever8" |} example_db)
      = Raise already_registered
  /\ UserCreate_init example_validate_email "longmail" overlong_email "testpass123"
                      None None None
      = Some overlong_user_data
  /\ String.length overlong_email = 126%nat
  /\ fst (create_user example_get_password_hash "s6" 1503 overlong_user_data example_db)
      = Raise DataError
  /\ users (snd (create_user example_get_password_hash "s6" 1503 overlong_user_data
                              example_db))
      = users example_db.
Proof.
  pose proof (create_user_outcomes example_get_password_hash example_validate_email)
    as H.
  split; [|split; [|split; [|split; [|split]]]].
  - destruct (H "s4" 1501 example_user_data example_db) as (_ & _ & _ & _ & Hinit & _).
    exact (Hinit "testuser" "test@example.com" "test@example.com" "testpass123"
                 None None None eq_refl eq_refl eq_refl eq_refl).
  - destruct (H "s4" 1501 example_user_data example_db) as (_ & _ & Hnew & _).
    assert (Hfits : fits_table example_user_data).
    { unfold fits_table; simpl. repeat split; lia. }
    destruct (Hnew example_user_data_not_taken Hfits)
      as (user & Hr & _ & Hh & Hrole & Ha & _).
    exists user. split; [exact Hr|]. split; [exact Hh|]. split; [exact Hrole|exact Ha].
  - apply (proj1 (H "s5" 1502 _ example_db)).
    exists admin_row. split; [left; reflexivity|left; reflexivity].
  - destruct (H "s6" 1503 overlong_user_data example_db) as (_ & _ & _ & _ & Hinit & _).
    exact (Hinit "longmail" overlong_email overlong_email "testpass123"
                 None None None eq_refl eq_refl eq_refl eq_refl).
  - reflexivity.
  - destruct (H "s6" 1503 overlong_user_data example_db) as (_ & _ & _ & Hlong & _).
    exact (Hlong overlong_user_data_not_taken overlong_user_data_does_not_fit).
Defined.

Lemma login_user_on_examples :
  let login_as username password :=
    fst (login_user Settings.defaults example_verify_password example_sign
                    example_render_token 1000 1001 1002
                    {| UserLogin.username := username; UserLogin.password := password |}
                    example_db) in
  login_as "nonexistent" "wrongpass" = Raise incorrect_username_or_password
  /\ login_as "authtest" "testpass123"
     = Return {| Token.access_token := "authtest.token";
                 Token.token_type := "bearer";
                 Token.expires_in := 1800 |}.
Proof.
  intro login_as. subst login_as. split.
  - apply (proj1 (login_user_outcomes Settings.defaults example_verify_password
                    example_sign example_render_token 1000 1001 1002 _ example_db)).
    reflexivity.
  - apply (proj1 (proj2 (login_user_outcomes Settings.defaults example_verify_password
                           example_sign example_render_token 1000 1001 1002
                           {| UserLogin.username := "authtest";
                              UserLogin.password := "testpass123" |} example_db))
                 (Instance.assign_last_login 1000 (Instance.of_row authtest_row))
                 eq_refl).
Defined.

Lemma decode_issue_round_trip_on_examples :
  decode Settings.defaults example_sign 2799
         (issue Settings.defaults example_sign 1000 (example_claims admin_row) 1800)
  = inr (example_claims admin_row).
Proof.
  apply (decode_issue_round_trip Settings.defaults example_sign); lia.
Defined.

(** The claim that a successful authentication changes [last_login] and
    nothing else fails on the test data: [updated_at] of the user goes from
    NULL to the database time. *)
Lemma authenticate_user_sets_updated_at :
  let login_data := {| UserLogin.username := "authtest";
                       UserLogin.password := "testpass123" |} in
  let after := authenticate_user example_verify_password 1000 1001 login_data example_db in
  map User.updated_at (users example_db) = [None; None; None]
  /\ option_map Instance.username (fst after) = Some "authtest"
  /\ map User.updated_at (users (snd after)) = [None; Some 1001; None]
  /\ ~ authenticate_user_changes_only_last_login example_verify_password.
Proof.
  intros login_data after.
  split; [reflexivity|]. split; [reflexivity|]. split; [reflexivity|].
  intro H. specialize (H 1000 1001 login_data example_db).
  vm_compute in H. destruct H as [_ H].
  inversion H as [|r1 r1' rows1 rows1' _ H1]; subst.
  inversion H1 as [|r2 r2' rows2 rows2' Hrow _]; subst.
  discriminate Hrow.
Qed.

Lemma responses_hide_passwords_on_examples :
  let db2 :=
    {| users := [User.with_updated_at None admin_row; authtest_row; dormant_row];
       id_seq := 3;
       statements := [SELECT] |} in
  fst (register Settings.defaults example_get_password_hash example_sign
                example_parse_token example_validate_email
                1500 "s4" 1501 "admin.token" example_user_data example_db)
  = fst (register Settings.defaults (fun salt password => password) example_sign
                  example_parse_token example_validate_email
                  1500 "s9" 1501 "admin.token"
                  (UserCreate.with_password "another-password" example_user_data) db2).
Proof.
  intro db2.
  apply (responses_hide_passwords Settings.defaults example_sign example_parse_token
           example_validate_email example_get_password_hash
           (fun salt password => password)
           1500 "s4" "s9" 1501 "admin.token" example_user_data "another-password"
           example_db db2).
  split; reflexivity.
Defined.

Lemma failure_kinds_surfaced_on_examples :
  let me := route_me Settings.defaults example_sign example_parse_token
                     example_validate_email 1500 in
  let register_as authorization user_data :=
    route_register Settings.defaults example_get_password_hash example_sign
                   example_parse_token example_validate_email
                   1500 "s4" 1501 authorization user_data example_db in
  let login_as username password :=
    login Settings.defaults example_verify_password example_sign example_render_token
          1000 1001 1002
          {| UserLogin.username := username; UserLogin.password := password |}
          example_db in
  fst (me None example_db) = Error not_authenticated
  /\ fst (me (Some "Basic admin.token") example_db)
      = Error invalid_authentication_credentials
  /\ fst (me (Some "Bearer garbage") example_db) = Error credentials_exception
  /\ fst (me (Some "Bearer dormant.token") example_db) = Error inactive_user
  /\ fst (register_as (Some "Bearer authtest.token") example_user_data)
      = Error not_enough_permissions
  /\ fst (register_as (Some "bearer admin.token")
                       (UserCreate.with_password "otherpass1"
                          {| UserCreate.username := "authtest";
                             UserCreate.email := "new@example.com";
                             UserCreate.full_name := None;
                             UserCreate.role := VIEWER;
                             UserCreate.is_active := true;
                             UserCreate.password := "testpass123" |}))
      = Error already_registered
  /\ fst (login_as "authtest" "wrongpass") = Error incorrect_username_or_password
  /\ only_lookups example_db
        (snd (register_as (Some "Bearer authtest.token") example_user_data)).
Proof.
  intros me register_as login_as. subst me register_as login_as.
  destruct (failure_kinds_surfaced Settings.defaults example_verify_password
              example_get_password_hash example_sign example_render_token
              example_parse_token example_validate_email)
    as (_ & _ & Hlogin & Hme & Hregister & _ & _ & _ & _ & Hlookups).
  split; [|split; [|split; [|split; [|split; [|split; [|split]]]]]].
  - apply (proj2 (Hme 1500 None example_db not_authenticated)).
    left. reflexivity.
  - apply (proj2 (Hme 1500 (Some "Basic admin.token") example_db
                      invalid_authentication_credentials)).
    left. reflexivity.
  - apply (proj2 (Hme 1500 (Some "Bearer garbage") example_db credentials_exception)).
    right. exists "garbage". split; reflexivity.
  - apply (proj2 (Hme 1500 (Some "Bearer dormant.token") example_db inactive_user)).
    right. exists "dormant.token". split; reflexivity.
  - apply (proj2 (Hregister 1500 "s4" 1501 (Some "Bearer authtest.token")
                            example_user_data example_db not_enough_permissions)).
    right. exists "authtest.token". split; [reflexivity|].
    right. exists authtest_row. split; [reflexivity|].
    left. split; [discriminate|reflexivity].
  - apply (proj2 (Hregister 1500 "s4" 1501 (Some "bearer admin.token") _ example_db
                            already_registered)).
    right. exists "admin.token". split; [reflexivity|].
    right. exists admin_row. split; [reflexivity|].
    right. split; [reflexivity|]. split; [|reflexivity].
    exists authtest_row. split; [right; left; reflexivity|left; reflexivity].
  - apply (proj2 (Hlogin 1000 1001 1002
                         {| UserLogin.username := "authtest";
                            UserLogin.password := "wrongpass" |}
                         example_db incorrect_username_or_password)).
    split; reflexivity.
  - apply (Hlookups 1500 "s4" 1501 (Some "Bearer authtest.token") example_user_data
                    example_db not_enough_permissions).
    reflexivity.
Defined.

Lemma create_user_is_not_verified_on_examples :
  exists user db',
    create_user example_get_password_hash "s4" 1501 example_user_data example_db
    = (Return user, db')
    /\ User.is_verified user = Some false.
Proof.
  eexists. eexists. split; [reflexivity|].
  apply (create_user_is_not_verified Settings.defaults example_get_password_hash
           example_sign example_parse_token example_validate_email
           "s4" 1501 example_user_data example_db _ _ eq_refl).
Defined.

(** ** The further properties on the test data *)

Lemma example_db_constraints : table_constraints example_db.
Proof.
  unfold table_constraints, example_db; simpl.
  split; [|split; [|split]].
  - repeat (constructor; [simpl; intuition discriminate|]). constructor.
  - repeat (constructor; [simpl; intuition discriminate|]). constructor.
  - repeat (constructor; [simpl; intuition discriminate|]). constructor.
  - repeat (constructor; [simpl; lia|]). constructor.
Defined.

Lemma create_user_keeps_table_constraints_on_examples :
  table_constraints
    (snd (create_user example_get_password_hash "s4" 1501 example_user_data example_db)).
Proof.
  apply (create_user_keeps_table_constraints example_get_password_hash).
  exact example_db_constraints.
Defined.

Lemma authenticate_user_keeps_table_constraints_on_examples :
  table_constraints
    (snd (authenticate_user example_verify_password 1000 1001
            {| UserLogin.username := "authtest"; UserLogin.password := "testpass123" |}
            example_db)).
Proof.
  apply (authenticate_user_keeps_table_constraints example_verify_password).
  exact example_db_constraints.
Defined.

Lemma authenticate_user_sound_on_examples :
  let user := Instance.assign_last_login 1000 (Instance.of_row authtest_row) in
  exists row,
    fst (get_user_by_username "authtest" example_db) = Some row
    /\ In row (users example_db)
    /\ User.username row = "authtest"
    /\ example_verify_password "testpass123" (User.hashed_password row) = true
    /\ User.is_active row = Some true
    /\ user = Instance.assign_last_login 1000 (Instance.of_row row)
    /\ Instance.last_login user = Some 1000
    /\ Instance.updated_at user = ExpiredAttribute.
Proof.
  intro user.
  exact (authenticate_user_sound example_verify_password 1000 1001
           {| UserLogin.username := "authtest"; UserLogin.password := "testpass123" |}
           example_db _ user eq_refl).
Defined.

Lemma get_current_user_sound_on_examples :
  In admin_row (users example_db) /\ User.is_active admin_row = Some true.
Proof.
  destruct (get_current_user_sound Settings.defaults example_sign example_parse_token
              1500 "admin.token" example_db _ admin_row eq_refl) as (Hin & Ha & _).
  split; [exact Hin|exact Ha].
Defined.

Lemma role_gate_sound_on_examples :
  User.role admin_row = ADMIN \/ User.role admin_row = ADMIN.
Proof.
  exact (proj1 (proj2 (proj2
           (role_gate_sound Settings.defaults example_sign example_parse_token
              ADMIN 1500 "admin.token" example_db _ admin_row eq_refl)))).
Defined.

Lemma register_needs_admin_on_examples :
  let response :=
    register Settings.defaults example_get_password_hash example_sign
             example_parse_token example_validate_email
             1500 "s4" 1501 "authtest.token" example_user_data example_db in
  users (snd response) = users example_db
  /\ id_seq (snd response) = id_seq example_db
  /\ (fst response = Error credentials_exception
      \/ fst response = Error inactive_user
      \/ fst response = Error not_enough_permissions).
Proof.
  apply (register_needs_admin Settings.defaults example_get_password_hash example_sign
           example_parse_token example_validate_email).
  intros admin H. vm_compute in H. injection H as <-. discriminate.
Defined.

Lemma create_user_then_lookup_on_examples :
  exists user db',
    create_user example_get_password_hash "s4" 1501 example_user_data example_db
    = (Return user, db')
    /\ fst (get_user_by_username "testuser" db') = Some user
    /\ fst (get_user_by_id (Some 4) db') = Some user.
Proof.
  eexists. eexists. split; [reflexivity|].
  exact (create_user_then_lookup example_get_password_hash "s4" 1501 example_user_data
           example_db _ _ example_db_constraints eq_refl).
Defined.

Lemma create_user_twice_conflicts_on_examples :
  fst (create_user example_get_password_hash "s5" 1502
         (UserCreate.with_password "otherpass1" example_user_data)
         (snd (create_user example_get_password_hash "s4" 1501 example_user_data
                           example_db)))
  = Raise already_registered.
Proof.
  exact (f_equal fst
           (create_user_twice_conflicts example_get_password_hash "s4" "s5" 1501 1502
              example_user_data (UserCreate.with_password "otherpass1" example_user_data)
              example_db _ _ eq_refl (or_introl eq_refl))).
Defined.

Lemma created_user_authenticates_on_examples :
  let db' :=
    snd (create_user example_get_password_hash "s4" 1501 example_user_data example_db) in
  option_map Instance.username
    (fst (authenticate_user example_verify_password 2000 2001
            {| UserLogin.username := "testuser"; UserLogin.password := "testpass123" |}
            db')) = Some "testuser"
  /\ fst (authenticate_user example_verify_password 2000 2001
            {| UserLogin.username := "testuser"; UserLogin.password := "wrongpass" |}
            db') = None.
Proof.
  intro db'. subst db'. split.
  - exact (f_equal (option_map Instance.username)
             (created_user_authenticates example_verify_password
                example_get_password_hash "s4" 1501 2000 2001 example_user_data
                example_db _ _ "testpass123" eq_refl)).
  - exact (created_user_authenticates example_verify_password
             example_get_password_hash "s4" 1501 2000 2001 example_user_data
             example_db _ _ "wrongpass" eq_refl).
Defined.

Lemma authenticate_user_again_on_examples :
  let login_data :=
    {| UserLogin.username := "authtest"; UserLogin.password := "testpass123" |} in
  let first := authenticate_user example_verify_password 1000 1001 login_data example_db in
  let second := authenticate_user example_verify_password 3000 3001 login_data (snd first) in
  let user := Instance.assign_last_login 3000 (Instance.of_row authtest_row) in
  fst second = Some user
  /\ Instance.last_login user = Some 3000
  /\ Instance.updated_at user = ExpiredAttribute
  /\ In (User.touch_last_login 3000 3001 authtest_row) (users (snd second)).
Proof.
  intros login_data first second user.
  destruct (authenticate_user_again example_verify_password 1000 1001 3000 3001
              login_data example_db (snd first)
              (Instance.assign_last_login 1000 (Instance.of_row authtest_row)) eq_refl)
    as [Hfst Hin].
  split; [exact Hfst|]. split; [reflexivity|]. split; [reflexivity|exact Hin].
Defined.

Lemma login_then_resolve_on_examples :
  let login_data :=
    {| UserLogin.username := "authtest"; UserLogin.password := "testpass123" |} in
  let db' :=
    snd (authenticate_user example_verify_password 1000 1001 login_data example_db) in
  exists token,
    login_user Settings.defaults example_verify_password example_sign
               example_render_token 1000 1001 1000 login_data example_db
    = (Return token, db')
    /\ get_current_user Settings.defaults example_sign example_parse_token 1500
                        (Token.access_token token) db'
       = (Return (User.touch_last_login 1000 1001 authtest_row), sent SELECT db').
Proof.
  intros login_data db'.
  exact (login_then_resolve Settings.defaults example_verify_password example_sign
           example_render_token example_parse_token 1000 1001 1000 1500 login_data
           example_db db'
           (Instance.assign_last_login 1000 (Instance.of_row authtest_row))
           example_db_constraints eq_refl eq_refl eq_refl).
Defined.

Lemma UserCreate_init_accepts_iff_on_examples :
  (exists data,
      UserCreate_init example_validate_email "testuser" "test@example.com" "testpass123"
                      None None None = Some data)
  /\ ~ (exists data,
           UserCreate_init example_validate_email "ab" "test@example.com" "testpass123"
                           None None None = Some data).
Proof.
  split.
  - apply (proj1 (UserCreate_init_accepts_iff example_validate_email "testuser"
                    "test@example.com" "testpass123" None None None)).
    simpl. repeat split; try lia. discriminate.
  - intro H.
    apply (proj1 (UserCreate_init_accepts_iff example_validate_email "ab"
                    "test@example.com" "testpass123" None None None)) in H.
    simpl in H. lia.
Defined.

Lemma example_validate_email_idempotent :
  forall e e', example_validate_email e = Some e' -> example_validate_email e' = Some e'.
Proof.
  unfold example_validate_email. intros e e'.
  destruct (has_at e) eqn:He; [|discriminate].
  intro H. injection H as <-. rewrite He. reflexivity.
Defined.

Lemma register_response_is_valid_on_examples :
  fst (register Settings.defaults example_get_password_hash example_sign
                example_parse_token example_validate_email
                1500 "s4" 1501 "admin.token" example_user_data example_db)
  <> ResponseValidationError.
Proof.
  exact (proj1 (register_response_is_valid Settings.defaults example_get_password_hash
                  example_sign example_parse_token example_validate_email
                  "testuser" "test@example.com" "testpass123" (Some "Test User")
                  (Some ANALYST) None example_user_data
                  1500 "s4" 1501 "admin.token" example_db
                  eq_refl example_validate_email_idempotent)).
Defined.

Lemma create_admin_user_idempotent_on_examples :
  let db := {| users := [authtest_row; dormant_row]; id_seq := 3; statements := [] |} in
  fst (create_admin_user example_get_password_hash "s7" 5001
         (snd (create_admin_user example_get_password_hash "s6" 5000 db)))
  = AlreadyExists.
Proof.
  intro db.
  apply (proj1 (proj2 (create_admin_user_idempotent example_get_password_hash
                         "s6" "s7" 5000 5001 db))).
  discriminate.
Defined.

Lemma create_admin_user_keeps_table_constraints_on_examples :
  table_constraints (snd (create_admin_user example_get_password_hash "s6" 5000 example_db)).
Proof.
  apply (create_admin_user_keeps_table_constraints example_get_password_hash).
  exact example_db_constraints.
Defined.

Lemma seeded_admin_authenticates_on_examples :
  let db := {| users := [authtest_row; dormant_row]; id_seq := 3; statements := [] |} in
  option_map Instance.role
    (fst (authenticate_user example_verify_password 6000 6001
            {| UserLogin.username := "admin"; UserLogin.password := "admin123!" |}
            (snd (create_admin_user example_get_password_hash "s6" 5000 db))))
  = Some ADMIN.
Proof.
  intro db.
  exact (f_equal (option_map Instance.role)
           (proj1 (seeded_admin_authenticates example_verify_password
                     example_get_password_hash "s6" 5000 6000 6001 db _ _ "admin123!"
                     eq_refl))).
Defined.

Lemma get_current_user_info_sound_on_examples :
  exists row,
    In row (users example_db)
    /\ fst (get_current_user Settings.defaults example_sign example_parse_token
              1500 "authtest.token" example_db) = Return row
    /\ User.id row = 2.
Proof.
  destruct (get_current_user_info_sound Settings.defaults example_sign example_parse_token
              example_validate_email 1500 "authtest.token" example_db _ _ eq_refl)
    as (_ & _ & _ & row & Hin & Hg & Hid & _).
  exists row. split; [exact Hin|]. split; [exact Hg|]. rewrite <- Hid. reflexivity.
Defined.

Lemma lookups_find_every_row_on_examples :
  fst (get_user_by_username "dormant" example_db) = Some dormant_row
  /\ fst (get_user_by_id (Some 3) example_db) = Some dormant_row.
Proof.
  apply (lookups_find_every_row example_db dormant_row example_db_constraints).
  right; right; left. reflexivity.
Defined.

Lemma get_current_user_reads_only_user_id_on_examples :
  let parse_token (s : string) : option SignedToken.t :=
    if String.eqb s "renamed.token"
    then Some {| SignedToken.claims :=
                   {| Claims.sub := "someone"; Claims.user_id := 2; Claims.role := "admin" |};
                 SignedToken.exp := 2800;
                 SignedToken.signature :=
                   example_sign (Settings.SECRET_KEY Settings.defaults)
                     {| Claims.sub := "someone"; Claims.user_id := 2;
                        Claims.role := "admin" |} 2800 |}
    else example_parse_token s in
  get_current_user Settings.defaults example_sign parse_token 1500 "renamed.token"
                   example_db
  = get_current_user Settings.defaults example_sign parse_token 1500 "authtest.token"
                     example_db.
Proof.
  intro parse_token.
  apply (get_current_user_reads_only_user_id Settings.defaults example_sign parse_token
           1500 "renamed.token" "authtest.token" example_db _ _ eq_refl eq_refl).
  reflexivity.
Defined.
